(** * pywps.validator.complexvalidator

    A shallow embedding of the four complex-input validators of
    [pywps/validator/complexvalidator.py] ([validategml],
    [validategeojson], [validateshapefile], [validategeotiff]) and of the
    helper [_get_schemas_home], together with the properties the
    specification states about them.

    The validators are written against the interfaces of their external
    collaborators (mimetypes, OGR/GDAL, zipfile, urllib, lxml, json,
    jsonschema), which are gathered in the record [World]; what the
    validators do between two calls to a collaborator is translated
    statement by statement. *)

From Stdlib Require Import ZArith Ascii String List Bool Lia.
From stdpp Require Import base decidable option list strings gmap.

Local Open Scope Z_scope.
Local Open Scope string_scope.

(** ** Python values and control effects *)

(** Classes of the exceptions the collaborators raise.  All of them
    derive from Python's [Exception]; interpreter exits such as
    [KeyboardInterrupt], which derive from [BaseException] only, are not
    modelled. *)
Inductive exn_class : Type :=
| UnboundLocalError      (* read of a local name that was never bound *)
| ValidationError        (* jsonschema.ValidationError *)
| SchemaError            (* jsonschema.SchemaError *)
| RefResolutionError     (* jsonschema.RefResolutionError *)
| ValueError             (* json.load / json.loads on malformed text *)
| IOError                (* open(), urlopen(), archive extraction *)
| BadZipfile             (* zipfile.ZipFile on a file that is no archive *)
| XMLSyntaxError         (* lxml.etree.parse *)
| XMLSchemaParseError    (* lxml.etree.XMLSchema *)
| TypeError.

Record exn : Type := mk_exn { exn_type : exn_class; exn_args : string }.

#[global] Instance exn_class_eq_dec : EqDecision exn_class.
Proof. solve_decision. Defined.

#[global] Instance exn_eq_dec : EqDecision exn.
Proof. solve_decision. Defined.

(** [isinstance(e, cls)]: none of the classes above subclasses another
    one of them. *)
Definition isinstance (e : exn) (cls : exn_class) : bool :=
  bool_decide (exn_type e = cls).

(** The outcome of a Python call: a value, or a raised exception. *)
Inductive result (A : Type) : Type :=
| Return (a : A)
| Raise (e : exn).
Arguments Return {A} a.
Arguments Raise {A} e.

(** Records written through [LOGGER]. *)
Inductive LogRecord : Type :=
| LogInfo (fmt : string) (arg : Z)
| LogDebug (fmt : string) (arg : string)
| LogWarning (e : exn).

(** What a validator call changes outside itself: the archive members
    written below a directory ([(member, directory)], oldest first) and
    the records handed to the logger (oldest first). *)
Record State : Type := mk_State {
  extracted : list (string * string);
  logged : list LogRecord
}.

(** A statement sequence: reads and updates the state, and ends with a
    value or a raised exception. *)
Definition M (A : Type) : Type := State -> result A * State.

Definition ret {A} (a : A) : M A := fun s => (Return a, s).

Definition raise {A} (e : exn) : M A := fun s => (Raise e, s).

Definition bind {A B} (m : M A) (k : A -> M B) : M B :=
  fun s =>
    match m s with
    | (Return a, s') => k a s'
    | (Raise e, s') => (Raise e, s')
    end.

(** A collaborator's outcome, lifted into a statement. *)
Definition call {A} (r : result A) : M A := fun s => (r, s).

(** [try: body except cls as e: handler(e)], where [catches] decides
    [isinstance(e, cls)]. *)
Definition try_except {A} (body : M A) (catches : exn -> bool)
    (handler : exn -> M A) : M A :=
  fun s =>
    match body s with
    | (Return a, s') => (Return a, s')
    | (Raise e, s') => if catches e then handler e s' else (Raise e, s')
    end.

Definition get_extracted : M (list (string * string)) :=
  fun s => (Return (extracted s), s).

Definition record_extracted (member dir : string) : M unit :=
  fun s => (Return tt,
            {| extracted := extracted s ++ [(member, dir)];
               logged := logged s |}).

Definition emit (r : LogRecord) : M unit :=
  fun s => (Return tt,
            {| extracted := extracted s; logged := logged s ++ [r] |}).

Declare Scope py_scope.
Delimit Scope py_scope with py.
Notation "'do' x <- m ; k" := (bind m (fun x => k))
  (at level 10, x name, m at level 100, k at level 200) : py_scope.
Notation "'run' m ; k" := (bind m (fun _ => k))
  (at level 10, m at level 100, k at level 200) : py_scope.
Local Open Scope py_scope.

(** The verdict (or exception) of a run, its extraction effects and its
    log. *)
Definition outcome {A} (r : result A * State) : result A := fst r.
Definition files_written {A} (r : result A * State) : list (string * string) :=
  extracted (snd r).
Definition log_of {A} (r : result A * State) : list LogRecord :=
  logged (snd r).

(** ** The [os.path] functions the module calls (POSIX flavour) *)

Module os_path.

Definition sep : ascii := "/"%char.
Definition extsep : ascii := "."%char.
Definition pardir : string := "..".

(** [s.rfind(c)]: index of the last occurrence of [c], or -1. *)
Fixpoint rfind_from (c : ascii) (s : string) (i : Z) (found : Z) : Z :=
  match s with
  | EmptyString => found
  | String a s' =>
      rfind_from c s' (i + 1) (if Ascii.eqb a c then i else found)
  end.

Definition rfind (c : ascii) (s : string) : Z := rfind_from c s 0 (-1).

(** [p[:i]] and [p[i:]] for [0 <= i]. *)
Definition prefix (i : Z) (p : string) : string :=
  String.substring 0 (Z.to_nat i) p.
Definition suffix (i : Z) (p : string) : string :=
  String.substring (Z.to_nat i) (String.length p - Z.to_nat i) p.

(** The loop of [genericpath._splitext] that skips leading dots: some
    character in [filenameIndex, dotIndex) differs from [extsep]. *)
Fixpoint has_body (n : nat) (p : string) (filenameIndex : Z) : bool :=
  match n with
  | O => false
  | S n' =>
      match String.get (Z.to_nat filenameIndex) p with
      | Some a =>
          if negb (Ascii.eqb a extsep) then true
          else has_body n' p (filenameIndex + 1)
      | None => true
      end
  end.

(** [os.path.splitext(p)]. *)
Definition splitext (p : string) : string * string :=
  let sepIndex := rfind sep p in
  let dotIndex := rfind extsep p in
  if (dotIndex >? sepIndex) &&
     has_body (Z.to_nat (dotIndex - (sepIndex + 1))) p (sepIndex + 1)
  then (prefix dotIndex p, suffix dotIndex p)
  else (p, "").

Definition startswith_sep (b : string) : bool :=
  match b with
  | String a _ => Ascii.eqb a sep
  | EmptyString => false
  end.

Fixpoint endswith_sep (a : string) : bool :=
  match a with
  | EmptyString => false
  | String c EmptyString => Ascii.eqb c sep
  | String _ a' => endswith_sep a'
  end.

Definition join_step (path b : string) : string :=
  if startswith_sep b then b
  else if bool_decide (path = "") || endswith_sep path then path +:+ b
  else path +:+ String sep b.

(** [os.path.join(a, *p)]. *)
Definition join (a : string) (p : list string) : string :=
  fold_left join_step p a.

End os_path.

(** [str.lower()] on the ASCII letters. *)
Definition lower_ascii (c : ascii) : ascii :=
  let n := nat_of_ascii c in
  if (65 <=? n)%nat && (n <=? 90)%nat then ascii_of_nat (n + 32) else c.

Fixpoint lower (s : string) : string :=
  match s with
  | EmptyString => EmptyString
  | String c s' => String (lower_ascii c) (lower s')
  end.

(** ** Data model *)

(** Modelled from the spec: [pywps.validator.mode.MODE], which the module
    imports and which is not among the sources; the specification gives
    the scale NONE = 0 < SIMPLE = 1 < STRICT = 2 < VERYSTRICT = 3.  A mode
    is the integer itself, as the validators compare it with [>=]. *)
Module MODE.
Definition NONE : Z := 0.
Definition SIMPLE : Z := 1.
Definition STRICT : Z := 2.
Definition VERYSTRICT : Z := 3.
End MODE.

(** A format descriptor: the attributes the validators read, each of
    which may hold [None]. *)
Record Format : Type := mk_Format {
  mime_type : option string;
  schema : option string
}.

(** The attributes of a [ComplexInput] the validators read.  [stream] is
    what reading the input's byte stream yields to the call at hand; the
    stream object itself is read to its end by the VERYSTRICT levels and
    never rewound, so a later call on the same object may find less
    (see [exhausted]). *)
Record ComplexInput : Type := mk_ComplexInput {
  file : string;
  data_format : Format;
  stream : string;
  tempdir : string
}.

(** What [GetDriver()] of an opened data source reports. *)
Record Driver : Type := mk_Driver {
  GetName : string;
  ShortName : string
}.

(** An object returned by [ogr.Open] or [gdal.Open]; [truth] is the
    value Python's [if] gives the object. *)
Record DataSource : Type := mk_DataSource {
  truth : bool;
  GetDriver : Driver
}.

(** [if x:] for [x] that is [None] or a data source. *)
Definition truth_of_source (x : option DataSource) : bool :=
  match x with
  | Some ds => truth ds
  | None => false
  end.

(** An opened archive. *)
Record ZipFile : Type := mk_ZipFile {
  archive : string;
  namelist : list string
}.

(** Parsed documents and compiled schemas are opaque to the validators;
    they are named by their text. *)
Definition Json : Type := string.
Definition ElementTree : Type := string.
Definition XMLSchema : Type := string.

(** [jsonschema.RefResolver(base_uri, referrer, store=...)]. *)
Record RefResolver : Type := mk_RefResolver {
  base_uri : string;
  referrer : Json;
  store : gmap string Json
}.

(** [jsonschema.Draft4Validator(schema, resolver=...)]. *)
Record Draft4Validator : Type := mk_Draft4Validator {
  validator_schema : Json;
  resolver : RefResolver
}.

(** The registry [pywps.inout.formats.FORMATS], which the module imports
    and which is not among the sources: its entries are parameters. *)
Record FORMATS_registry : Type := mk_FORMATS {
  GML : Format;
  GEOJSON : Format;
  SHP : Format;
  GEOTIFF : Format
}.

(** The external collaborators.  Those that read the file system take
    the extractions done so far, since an extraction changes what they
    find. *)
Record World : Type := mk_World {
  FORMATS : FORMATS_registry;
  (** [os.path.abspath(os.path.dirname(__file__))] *)
  module_dirname : string;
  (** [mimetypes.guess_type(name, strict=False)] *)
  mimetypes_guess_type : string -> option string * option string;
  (** [ogr.Open(path)] *)
  ogr_Open : list (string * string) -> string -> option DataSource;
  (** [gdal.Open(path)] *)
  gdal_Open : list (string * string) -> string -> option DataSource;
  (** [zipfile.ZipFile(path)] *)
  zipfile_ZipFile : list (string * string) -> string -> result ZipFile;
  (** [z.extract(member, path)]: the exception it raises, if any *)
  ZipFile_extract : list (string * string) -> ZipFile -> string -> string
                    -> option exn;
  (** [urlopen(url)]: the body served *)
  urlopen : option string -> result string;
  (** [etree.parse(source)] *)
  etree_parse : string -> result ElementTree;
  (** [etree.XMLSchema(doc)] *)
  etree_XMLSchema : ElementTree -> result XMLSchema;
  (** [schema.validate(doc)] *)
  XMLSchema_validate : XMLSchema -> ElementTree -> result bool;
  (** [with open(path) as fh: json.load(fh)] *)
  json_load_file : list (string * string) -> string -> result Json;
  (** [json.loads(text)] *)
  json_loads : string -> result Json;
  (** [validator.validate(instance)]: the exception it raises, if any *)
  Draft4Validator_validate : Draft4Validator -> Json -> option exn
}.

(** [x in {a, b}]. *)
Definition py_in (x : option string) (S : gset (option string)) : bool :=
  bool_decide (x ∈ S).

(** Reading a local name: [UnboundLocalError] when no assignment to it
    was executed. *)
Definition read_local {A} (name : string) (v : option A) : M A :=
  match v with
  | Some a => ret a
  | None =>
      raise (mk_exn UnboundLocalError
               ("local variable '" +:+ name +:+
                "' referenced before assignment"))
  end.

Definition LOGGER_info (fmt : string) (arg : Z) : M unit :=
  emit (LogInfo fmt arg).
Definition LOGGER_debug (fmt : string) (arg : string) : M unit :=
  emit (LogDebug fmt arg).
Definition LOGGER_warning (e : exn) : M unit :=
  emit (LogWarning e).

(** ** The validators *)

Section Validators.

Variable W : World.

(** [_get_schemas_home()] *)
Definition _get_schemas_home : M string :=
  let schema_dir :=
    os_path.join (module_dirname W) [os_path.pardir; "schemas"] in
  run LOGGER_debug "Schemas directory: %s" schema_dir;
  ret schema_dir.

(** [validategml(data_input, mode)] *)
Definition validategml (data_input : ComplexInput) (mode : Z) : M bool :=
  run LOGGER_info "validating GML; Mode: %s" mode;
  let passed := false in
  let passed := if mode >=? MODE.NONE then true else passed in
  let passed :=
    if mode >=? MODE.SIMPLE then
      let name := file data_input in
      let '(mtype, encoding) := mimetypes_guess_type W name in
      py_in (mime_type (data_format data_input))
            {[ mtype; mime_type (GML (FORMATS W)) ]}
    else passed in
  do passed <-
    (if mode >=? MODE.STRICT then
       do fs <- get_extracted;
       let data_source := ogr_Open W fs (file data_input) in
       match data_source with
       | Some ds =>
           if truth ds
           then ret (bool_decide (GetName (GetDriver ds) = "GML"))
           else ret false
       | None => ret false
       end
     else ret passed);
  do passed <-
    (if mode >=? MODE.VERYSTRICT then
       try_except
         (let schema_url := schema (data_format data_input) in
          do response <- call (urlopen W schema_url);
          do gmlschema_doc <- call (etree_parse W response);
          do gmlschema <- call (etree_XMLSchema W gmlschema_doc);
          do doc <- call (etree_parse W (stream data_input));
          call (XMLSchema_validate W gmlschema doc))
         (fun e => true)
         (fun e => run LOGGER_warning e; ret false)
     else ret passed);
  ret passed.

(** [validategeojson(data_input, mode)] *)
Definition validategeojson (data_input : ComplexInput) (mode : Z) : M bool :=
  run LOGGER_info "validating GeoJSON; Mode: %s" mode;
  let passed := false in
  let passed := if mode >=? MODE.NONE then true else passed in
  let passed :=
    if mode >=? MODE.SIMPLE then
      let name := file data_input in
      let '(mtype, encoding) := mimetypes_guess_type W name in
      py_in (mime_type (data_format data_input))
            {[ mtype; mime_type (GEOJSON (FORMATS W)) ]}
    else passed in
  do passed <-
    (if mode >=? MODE.STRICT then
       do fs <- get_extracted;
       let data_source := ogr_Open W fs (file data_input) in
       match data_source with
       | Some ds =>
           if truth ds
           then ret (bool_decide (GetName (GetDriver ds) = "GeoJSON"))
           else ret false
       | None => ret false
       end
     else ret passed);
  do passed <-
    (if mode >=? MODE.VERYSTRICT then
       do home <- _get_schemas_home;
       let schema_home := os_path.join home ["geojson"] in
       let base_schema := os_path.join schema_home ["geojson.json"] in
       do fs <- get_extracted;
       do geojson_base <- call (json_load_file W fs base_schema);
       do crs_json <-
         call (json_load_file W fs (os_path.join schema_home ["crs.json"]));
       do bbox_json <-
         call (json_load_file W fs (os_path.join schema_home ["bbox.json"]));
       do geometry_json <-
         call (json_load_file W fs
                 (os_path.join schema_home ["geometry.json"]));
       let cached_json : gmap string Json :=
         <["http://json-schema.org/geojson/crs.json" := crs_json]>
         (<["http://json-schema.org/geojson/bbox.json" := bbox_json]>
         (<["http://json-schema.org/geojson/geometry.json" := geometry_json]>
          ∅)) in
       let resolver :=
         mk_RefResolver "http://json-schema.org/geojson/geojson.json"
                        geojson_base cached_json in
       let validator := mk_Draft4Validator geojson_base resolver in
       try_except
         (do instance <- call (json_loads W (stream data_input));
          match Draft4Validator_validate W validator instance with
          | Some e => raise e
          | None => ret true
          end)
         (fun e => isinstance e ValidationError)
         (fun e => ret false)
     else ret passed);
  ret passed.

(** The body of the loop over [z.namelist()] in [validateshapefile]:
    [shape_name] is carried from one member to the next. *)
Definition extract_member (data_input : ComplexInput) (z : ZipFile)
    (shape_name : option string) (name : string) : M (option string) :=
  do fs <- get_extracted;
  run (match ZipFile_extract W fs z name (tempdir data_input) with
       | Some e => raise e
       | None => record_extracted name (tempdir data_input)
       end);
  if bool_decide (lower (snd (os_path.splitext name)) = ".shp")
  then ret (Some name)
  else ret shape_name.

Fixpoint extract_members (data_input : ComplexInput) (z : ZipFile)
    (shape_name : option string) (names : list string)
    : M (option string) :=
  match names with
  | [] => ret shape_name
  | name :: names' =>
      do shape_name <- extract_member data_input z shape_name name;
      extract_members data_input z shape_name names'
  end.

(** [validateshapefile(data_input, mode)].  The local name
    [data_source] is bound only on the branch that opens the extracted
    file. *)
Definition validateshapefile (data_input : ComplexInput) (mode : Z)
    : M bool :=
  run LOGGER_info "validating Shapefile; Mode: %s" mode;
  let passed := false in
  let passed := if mode >=? MODE.NONE then true else passed in
  let passed :=
    if mode >=? MODE.SIMPLE then
      let name := file data_input in
      let '(mtype, encoding) := mimetypes_guess_type W name in
      py_in (mime_type (data_format data_input))
            {[ mtype; mime_type (SHP (FORMATS W)) ]}
    else passed in
  do passed <-
    (if mode >=? MODE.STRICT then
       do fs <- get_extracted;
       do z <- call (zipfile_ZipFile W fs (file data_input));
       let shape_name : option string := None in
       do shape_name <- extract_members data_input z shape_name (namelist z);
       do data_source <-
         (match shape_name with
          | Some shape_name =>
              if negb (bool_decide (shape_name = "")) then
                do fs <- get_extracted;
                ret (Some (ogr_Open W fs
                             (os_path.join (tempdir data_input)
                                           [shape_name])))
              else ret None
          | None => ret None
          end);
       do data_source <- read_local "data_source" data_source;
       match data_source with
       | Some ds =>
           if truth ds
           then ret (bool_decide (GetName (GetDriver ds) = "ESRI Shapefile"))
           else ret false
       | None => ret false
       end
     else ret passed);
  ret passed.

(** [validategeotiff(data_input, mode)] *)
Definition validategeotiff (data_input : ComplexInput) (mode : Z)
    : M bool :=
  run LOGGER_info "Validating Shapefile; Mode: %s" mode;
  let passed := false in
  let passed := if mode >=? MODE.NONE then true else passed in
  let passed :=
    if mode >=? MODE.SIMPLE then
      let name := file data_input in
      let '(mtype, encoding) := mimetypes_guess_type W name in
      py_in (mime_type (data_format data_input))
            {[ mtype; mime_type (GEOTIFF (FORMATS W)) ]}
    else passed in
  do passed <-
    (if mode >=? MODE.STRICT then
       do fs <- get_extracted;
       let data_source := gdal_Open W fs (file data_input) in
       match data_source with
       | Some ds =>
           if truth ds
           then ret (bool_decide (ShortName (GetDriver ds) = "GTiff"))
           else ret false
       | None => ret false
       end
     else ret passed);
  ret passed.

End Validators.

(** ** The checks of each level, as the specification words them *)

(** SIMPLE: the declared MIME type is the type guessed from the file
    name, or the canonical type of the format. *)
Definition mime_check (W : World) (canonical : Format) (inp : ComplexInput)
    : Prop :=
  mime_type (data_format inp) = fst (mimetypes_guess_type W (file inp)) \/
  mime_type (data_format inp) = mime_type canonical.

(** STRICT: the library opened the input and the driver that recognised
    it has the expected name. *)
Definition driver_check (opened : option DataSource)
    (name : Driver -> string) (expected : string) : bool :=
  truth_of_source opened &&
  match opened with
  | Some ds => bool_decide (name (GetDriver ds) = expected)
  | None => false
  end.

(** Sequencing of two outcomes without state. *)
Definition and_then {A B} (r : result A) (k : A -> result B) : result B :=
  match r with
  | Return a => k a
  | Raise e => Raise e
  end.

(** VERYSTRICT for GML: fetch the schema from the schema URL, parse and
    compile it, parse the input's XML stream, validate. *)
Definition gml_schema_attempt (W : World) (inp : ComplexInput) : result bool :=
  and_then (urlopen W (schema (data_format inp))) (fun response =>
  and_then (etree_parse W response) (fun schema_doc =>
  and_then (etree_XMLSchema W schema_doc) (fun xsd =>
  and_then (etree_parse W (stream inp)) (fun doc =>
  XMLSchema_validate W xsd doc)))).

(** Any failure on the way is a failed check. *)
Definition gml_schema_check (W : World) (inp : ComplexInput) : bool :=
  match gml_schema_attempt W inp with
  | Return b => b
  | Raise _ => false
  end.

(** The four files of the bundled GeoJSON schema. *)
Definition geojson_schema_files (W : World) : list string :=
  let home := os_path.join (module_dirname W) [os_path.pardir; "schemas"] in
  let schema_home := os_path.join home ["geojson"] in
  map (fun f => os_path.join schema_home [f])
      ["geojson.json"; "crs.json"; "bbox.json"; "geometry.json"].

(** The validator built from the bundled schema, its three sub-schemas
    resolved locally. *)
Definition bundled_validator (geojson_base crs bbox geometry : Json)
    : Draft4Validator :=
  mk_Draft4Validator geojson_base
    (mk_RefResolver "http://json-schema.org/geojson/geojson.json"
       geojson_base
       (list_to_map
          [("http://json-schema.org/geojson/crs.json", crs);
           ("http://json-schema.org/geojson/bbox.json", bbox);
           ("http://json-schema.org/geojson/geometry.json", geometry)])).

(** A member of an archive with extension [.shp], in any letter case. *)
Definition is_shp (name : string) : bool :=
  bool_decide (lower (snd (os_path.splitext name)) = ".shp").

(** The last such member of a member list. *)
Definition last_shp (names : list string) : option string :=
  last (List.filter is_shp names).

(** Two worlds whose collaborators give the same answer to every
    question. *)
Record same_answers (W1 W2 : World) : Prop := mk_same_answers {
  sa_FORMATS : FORMATS W1 = FORMATS W2;
  sa_module_dirname : module_dirname W1 = module_dirname W2;
  sa_guess_type : forall n, mimetypes_guess_type W1 n = mimetypes_guess_type W2 n;
  sa_ogr_Open : forall fs p, ogr_Open W1 fs p = ogr_Open W2 fs p;
  sa_gdal_Open : forall fs p, gdal_Open W1 fs p = gdal_Open W2 fs p;
  sa_ZipFile : forall fs p, zipfile_ZipFile W1 fs p = zipfile_ZipFile W2 fs p;
  sa_extract : forall fs z m d,
      ZipFile_extract W1 fs z m d = ZipFile_extract W2 fs z m d;
  sa_urlopen : forall u, urlopen W1 u = urlopen W2 u;
  sa_parse : forall t, etree_parse W1 t = etree_parse W2 t;
  sa_XMLSchema : forall d, etree_XMLSchema W1 d = etree_XMLSchema W2 d;
  sa_validate : forall x d, XMLSchema_validate W1 x d = XMLSchema_validate W2 x d;
  sa_json_load : forall fs p, json_load_file W1 fs p = json_load_file W2 fs p;
  sa_json_loads : forall t, json_loads W1 t = json_loads W2 t;
  sa_Draft4 : forall v i,
      Draft4Validator_validate W1 v i = Draft4Validator_validate W2 v i
}.

(** Two runs agree when they end alike and leave the same files; their
    logs may differ. *)
Definition agree {A} (r1 r2 : result A * State) : Prop :=
  outcome r1 = outcome r2 /\ files_written r1 = files_written r2.

(** Two statements that agree from any two states holding the same
    files. *)
Definition alike {A} (m1 m2 : M A) : Prop :=
  forall s1 s2, extracted s1 = extracted s2 -> agree (m1 s1) (m2 s2).

(** VERYSTRICT for GeoJSON: the bundled schema and its sub-schemas load,
    the input parses, and the schema validates the parsed document. *)
Definition geojson_schema_valid (W : World) (fs : list (string * string))
    (inp : ComplexInput) : Prop :=
  exists geojson_base crs bbox geometry instance,
    map (json_load_file W fs) (geojson_schema_files W) =
      [Return geojson_base; Return crs; Return bbox; Return geometry] /\
    json_loads W (stream inp) = Return instance /\
    Draft4Validator_validate W
      (bundled_validator geojson_base crs bbox geometry) instance = None.

(** The input with another declared format. *)
Definition redeclare (inp : ComplexInput) (declared : Format) : ComplexInput :=
  mk_ComplexInput (file inp) declared (stream inp) (tempdir inp).

(** The input object as a later call finds it once its stream has been
    read to the end: a further read yields nothing. *)
Definition exhausted (inp : ComplexInput) : ComplexInput :=
  mk_ComplexInput (file inp) (data_format inp) "" (tempdir inp).

(** A world whose collaborators answer the same whatever has been
    extracted so far. *)
Record history_free (W : World) : Prop := mk_history_free {
  hf_ogr_Open : forall fs fs' p, ogr_Open W fs p = ogr_Open W fs' p;
  hf_gdal_Open : forall fs fs' p, gdal_Open W fs p = gdal_Open W fs' p;
  hf_ZipFile : forall fs fs' p, zipfile_ZipFile W fs p = zipfile_ZipFile W fs' p;
  hf_extract : forall fs fs' z m d,
      ZipFile_extract W fs z m d = ZipFile_extract W fs' z m d;
  hf_json_load : forall fs fs' p, json_load_file W fs p = json_load_file W fs' p
}.

(** Two statements that end alike from any two states. *)
Definition same_outcome {A} (m1 m2 : M A) : Prop :=
  forall s1 s2, outcome (m1 s1) = outcome (m2 s2).

(** ** A small world to run the validators in *)

Module Fixture.

Definition formats : FORMATS_registry :=
  mk_FORMATS
    (mk_Format (Some "application/gml+xml")
               (Some "http://schemas.opengis.net/gml/2.1.2/feature.xsd"))
    (mk_Format (Some "application/vnd.geo+json") None)
    (mk_Format (Some "application/x-zipped-shp") None)
    (mk_Format (Some "image/tiff; subtype=geotiff") None).

Definition ext (path : string) : string := lower (snd (os_path.splitext path)).

Definition guess_type (name : string) : option string * option string :=
  if bool_decide (ext name = ".json") then (Some "application/json", None)
  else if bool_decide (ext name = ".tif") then (Some "image/tiff", None)
  else if bool_decide (ext name = ".png") then (Some "image/png", None)
  else if bool_decide (ext name = ".zip") then (Some "application/zip", None)
  else if bool_decide (ext name = ".txt") then (Some "text/plain", None)
  else (None, None).

Definition source (name : string) : option DataSource :=
  Some (mk_DataSource true (mk_Driver name name)).

(** A vector file is found where it lies from the start, or where an
    extraction has put it. *)
Definition on_disk (fs : list (string * string)) (path : string) : bool :=
  bool_decide (path = "/data/parcels.gml") ||
  bool_decide (path = "/data/point.geojson") ||
  bool_decide (path = "/data/plain.txt") ||
  existsb (fun md => bool_decide (os_path.join (snd md) [fst md] = path)) fs.

Definition ogr_Open (fs : list (string * string)) (path : string)
    : option DataSource :=
  if negb (on_disk fs path) then None
  else if bool_decide (ext path = ".gml") then source "GML"
  else if bool_decide (ext path = ".geojson") then source "GeoJSON"
  else if bool_decide (ext path = ".shp") then source "ESRI Shapefile"
  else None.

Definition gdal_Open (fs : list (string * string)) (path : string)
    : option DataSource :=
  if bool_decide (path = "/data/dem.tif") then source "GTiff"
  else if bool_decide (path = "/data/photo.tif") then source "PNG"
  else None.

Definition open_zip (fs : list (string * string)) (path : string)
    : result ZipFile :=
  if bool_decide (path = "/data/roads.zip")
  then Return (mk_ZipFile path
                 ["roads.dbf"; "old/roads.SHP"; "roads.shx"; "roads.shp";
                  "roads.prj"])
  else if bool_decide (path = "/data/notes.zip")
  then Return (mk_ZipFile path ["readme.txt"])
  else Raise (mk_exn BadZipfile "File is not a zip file").

Definition extract (fs : list (string * string)) (z : ZipFile)
    (member dir : string) : option exn := None.

Definition fetch (url : option string) : result string :=
  match url with
  | Some u =>
      if bool_decide (u = "http://schemas.opengis.net/gml/2.1.2/feature.xsd")
      then Return "<xs:schema/>"
      else Raise (mk_exn IOError "<urlopen error timed out>")
  | None => Raise (mk_exn TypeError "expected a URL")
  end.

Definition starts_with (c : ascii) (text : string) : bool :=
  match text with
  | String a _ => Ascii.eqb a c
  | EmptyString => false
  end.

Definition parse_xml (text : string) : result ElementTree :=
  if starts_with "<" text then Return text
  else Raise (mk_exn XMLSyntaxError "Start tag expected").

Definition compile_xsd (doc : ElementTree) : result XMLSchema :=
  if bool_decide (doc = "<xs:schema/>") then Return doc
  else Raise (mk_exn XMLSchemaParseError "not a schema document").

Definition validate_xml (xsd : XMLSchema) (doc : ElementTree) : result bool :=
  Return (bool_decide (doc = "<gml:FeatureCollection/>")).

Definition load_json (fs : list (string * string)) (path : string)
    : result Json :=
  if bool_decide (ext path = ".json") then Return path
  else Raise (mk_exn IOError "No such file or directory").

Definition loads (text : string) : result Json :=
  if starts_with "{" text then Return text
  else Raise (mk_exn ValueError "No JSON object could be decoded").

(** The point feature of the specification's GeoJSON scenario, with [']
    for the quotation mark. *)
Definition point : string :=
  "{'type':'Feature','properties':{},'geometry':{'type':'Point','coordinates':[8.58,22.88]}}".

Definition validate_json (v : Draft4Validator) (instance : Json)
    : option exn :=
  if bool_decide (instance = point) then None
  else Some (mk_exn ValidationError "is not valid under any of the given schemas").

Definition world : World :=
  mk_World formats "/srv/pywps/validator" guess_type ogr_Open gdal_Open
           open_zip extract fetch parse_xml compile_xsd validate_xml
           load_json loads validate_json.

Definition start : State := mk_State [] [].

Definition input (path : string) (declared : Format) (text dir : string)
    : ComplexInput :=
  mk_ComplexInput path declared text dir.

(** A GML document declared as such. *)
Definition parcels : ComplexInput :=
  input "/data/parcels.gml" (GML formats) "<gml:FeatureCollection/>" "/tmp/w1".

(** A GeoJSON point, and a text that is no JSON under the same
    declaration. *)
Definition point_input : ComplexInput :=
  input "/data/point.geojson" (GEOJSON formats) point "/tmp/w2".
Definition broken_json : ComplexInput :=
  input "/data/point.geojson" (GEOJSON formats) "type: Feature" "/tmp/w2".
Definition line_json : ComplexInput :=
  input "/data/point.geojson" (GEOJSON formats) "{'type':'Line'}" "/tmp/w2".

(** A zipped shapefile, and an archive without any [.shp] member. *)
Definition roads : ComplexInput :=
  input "/data/roads.zip" (SHP formats) "" "/tmp/w3".
Definition notes : ComplexInput :=
  input "/data/notes.zip" (SHP formats) "" "/tmp/w4".

(** A GeoTIFF, and a PNG image renamed to [.tif]. *)
Definition dem : ComplexInput :=
  input "/data/dem.tif" (GEOTIFF formats) "" "/tmp/w5".
Definition photo : ComplexInput :=
  input "/data/photo.tif" (GEOTIFF formats) "" "/tmp/w6".

(** An input without declared type whose name has no known
    extension. *)
Definition untyped : ComplexInput :=
  input "/data/blob" (mk_Format None None) "" "/tmp/w7".

End Fixture.

(** ** Variations of the small world *)

Module Cases.

(** The scratch volume fills up while [roads.shx] is written. *)
Definition extract_until_full (fs : list (string * string)) (z : ZipFile)
    (member dir : string) : option exn :=
  if bool_decide (member = "roads.shx")
  then Some (mk_exn IOError "No space left on device")
  else None.

Definition disk_full : World :=
  mk_World Fixture.formats "/srv/pywps/validator" Fixture.guess_type
           Fixture.ogr_Open Fixture.gdal_Open Fixture.open_zip
           extract_until_full Fixture.fetch Fixture.parse_xml
           Fixture.compile_xsd Fixture.validate_xml Fixture.load_json
           Fixture.loads Fixture.validate_json.

(** An installation whose [crs.json] is missing. *)
Definition load_json_without_crs (fs : list (string * string))
    (path : string) : result Json :=
  if bool_decide (path = "/srv/pywps/validator/../schemas/geojson/crs.json")
  then Raise (mk_exn IOError "No such file or directory")
  else Fixture.load_json fs path.

Definition without_crs : World :=
  mk_World Fixture.formats "/srv/pywps/validator" Fixture.guess_type
           Fixture.ogr_Open Fixture.gdal_Open Fixture.open_zip
           Fixture.extract Fixture.fetch Fixture.parse_xml
           Fixture.compile_xsd Fixture.validate_xml load_json_without_crs
           Fixture.loads Fixture.validate_json.

(** A bundled schema that is itself no valid schema. *)
Definition validate_with_bad_schema (v : Draft4Validator) (instance : Json)
    : option exn :=
  Some (mk_exn SchemaError "is not of type 'object'").

Definition bad_schema : World :=
  mk_World Fixture.formats "/srv/pywps/validator" Fixture.guess_type
           Fixture.ogr_Open Fixture.gdal_Open Fixture.open_zip
           Fixture.extract Fixture.fetch Fixture.parse_xml
           Fixture.compile_xsd Fixture.validate_xml Fixture.load_json
           Fixture.loads validate_with_bad_schema.

(** An archive with a member of absolute name, and a shapefile that
    lies at that place from the start. *)
Definition open_zip_shared (fs : list (string * string)) (path : string)
    : result ZipFile :=
  if bool_decide (path = "/data/shared.zip")
  then Return (mk_ZipFile path ["notes/readme.txt"; "/srv/shared/roads.shp"])
  else Fixture.open_zip fs path.

Definition ogr_Open_shared (fs : list (string * string)) (path : string)
    : option DataSource :=
  if bool_decide (path = "/srv/shared/roads.shp")
  then Fixture.source "ESRI Shapefile"
  else Fixture.ogr_Open fs path.

Definition shared : World :=
  mk_World Fixture.formats "/srv/pywps/validator" Fixture.guess_type
           ogr_Open_shared Fixture.gdal_Open open_zip_shared
           Fixture.extract Fixture.fetch Fixture.parse_xml
           Fixture.compile_xsd Fixture.validate_xml Fixture.load_json
           Fixture.loads Fixture.validate_json.

Definition shared_archive : ComplexInput :=
  Fixture.input "/data/shared.zip" (SHP Fixture.formats) "" "/tmp/w8".

(** A vector library that finds every [.shp] file, whatever has been
    extracted. *)
Definition ogr_Open_steady (fs : list (string * string)) (path : string)
    : option DataSource :=
  if bool_decide (Fixture.ext path = ".shp")
  then Fixture.source "ESRI Shapefile"
  else None.

Definition steady : World :=
  mk_World Fixture.formats "/srv/pywps/validator" Fixture.guess_type
           ogr_Open_steady Fixture.gdal_Open Fixture.open_zip
           Fixture.extract Fixture.fetch Fixture.parse_xml
           Fixture.compile_xsd Fixture.validate_xml Fixture.load_json
           Fixture.loads Fixture.validate_json.

(** A GeoTIFF handed to the Shapefile validator. *)
Definition no_archive : ComplexInput :=
  Fixture.input "/data/dem.tif" (SHP Fixture.formats) "" "/tmp/w9".

End Cases.

(** ** Properties *)

Example splitext_plain : os_path.splitext "roads.SHP" = ("roads", ".SHP").
Proof. reflexivity. Qed.

Example splitext_dotfile : os_path.splitext "data/.shp" = ("data/.shp", "").
Proof. reflexivity. Qed.

Example splitext_dir_dot : os_path.splitext "a.b/c" = ("a.b/c", "").
Proof. reflexivity. Qed.

Example splitext_dots : os_path.splitext "d/..x.tar.gz" = ("d/..x.tar", ".gz").
Proof. reflexivity. Qed.

Example join_plain : os_path.join "/tmp/w" ["a/b.shp"] = "/tmp/w/a/b.shp".
Proof. reflexivity. Qed.

Example join_absolute : os_path.join "/tmp/w" ["/etc/x.shp"] = "/etc/x.shp".
Proof. reflexivity. Qed.

Example join_three : os_path.join "/pkg/validator" [os_path.pardir; "schemas"]
                     = "/pkg/validator/../schemas".
Proof. reflexivity. Qed.

Example lower_ext : lower ".ShP" = ".shp".
Proof. reflexivity. Qed.


(** *** Membership in a two-element set *)

Lemma py_in_pair (x a b : option string) :
  py_in x {[ a; b ]} = bool_decide (x = a) || bool_decide (x = b).
Proof.
  unfold py_in.
  destruct (decide (x = a)) as [->|Ha].
  - rewrite bool_decide_eq_true_2; [|apply elem_of_union_l, elem_of_singleton_2; reflexivity].
    rewrite (bool_decide_eq_true_2 (a = a)) by reflexivity. reflexivity.
  - rewrite (bool_decide_eq_false_2 (x = a)) by assumption. simpl.
    apply bool_decide_ext.
    rewrite elem_of_union, !elem_of_singleton. tauto.
Qed.

Lemma py_in_pair_true (x a b : option string) :
  py_in x {[ a; b ]} = true <-> x = a \/ x = b.
Proof.
  rewrite py_in_pair, orb_true_iff, !bool_decide_eq_true. reflexivity.
Qed.

#[global] Opaque py_in.

(** Unfolding of the statement combinators. *)
Ltac unfold_stmts :=
  unfold outcome, files_written, log_of, _get_schemas_home,
    LOGGER_info, LOGGER_debug, LOGGER_warning, read_local,
    try_except, bind, call, ret, raise, get_extracted, record_extracted,
    emit in *.

(** *** What the SIMPLE level computes *)

Lemma validategml_SIMPLE W inp st :
  outcome (validategml W inp MODE.SIMPLE st) =
  Return (py_in (mime_type (data_format inp))
            {[ fst (mimetypes_guess_type W (file inp));
               mime_type (GML (FORMATS W)) ]}).
Proof.
  unfold validategml. cbn.
  destruct (mimetypes_guess_type W (file inp)); reflexivity.
Qed.

Lemma validategeojson_SIMPLE W inp st :
  outcome (validategeojson W inp MODE.SIMPLE st) =
  Return (py_in (mime_type (data_format inp))
            {[ fst (mimetypes_guess_type W (file inp));
               mime_type (GEOJSON (FORMATS W)) ]}).
Proof.
  unfold validategeojson. cbn.
  destruct (mimetypes_guess_type W (file inp)); reflexivity.
Qed.

Lemma validateshapefile_SIMPLE W inp st :
  outcome (validateshapefile W inp MODE.SIMPLE st) =
  Return (py_in (mime_type (data_format inp))
            {[ fst (mimetypes_guess_type W (file inp));
               mime_type (SHP (FORMATS W)) ]}).
Proof.
  unfold validateshapefile. cbn.
  destruct (mimetypes_guess_type W (file inp)); reflexivity.
Qed.

Lemma validategeotiff_SIMPLE W inp st :
  outcome (validategeotiff W inp MODE.SIMPLE st) =
  Return (py_in (mime_type (data_format inp))
            {[ fst (mimetypes_guess_type W (file inp));
               mime_type (GEOTIFF (FORMATS W)) ]}).
Proof.
  unfold validategeotiff. cbn.
  destruct (mimetypes_guess_type W (file inp)); reflexivity.
Qed.

(** *** What the STRICT level computes when the library is asked once *)

Lemma driver_check_cases (opened : option DataSource) name expected :
  match opened with
  | Some ds =>
      if truth ds then bool_decide (name (GetDriver ds) = expected) else false
  | None => false
  end = driver_check opened name expected.
Proof. destruct opened as [[[] d]|]; reflexivity. Qed.

Lemma validategml_STRICT W inp st :
  outcome (validategml W inp MODE.STRICT st) =
  Return (driver_check (ogr_Open W (extracted st) (file inp)) GetName "GML").
Proof.
  unfold validategml. unfold_stmts. cbn. rewrite <- driver_check_cases.
  destruct (ogr_Open W (extracted st) (file inp)) as [[[] d]|]; reflexivity.
Qed.

Lemma validategeojson_STRICT W inp st :
  outcome (validategeojson W inp MODE.STRICT st) =
  Return (driver_check (ogr_Open W (extracted st) (file inp)) GetName "GeoJSON").
Proof.
  unfold validategeojson. unfold_stmts. cbn. rewrite <- driver_check_cases.
  destruct (ogr_Open W (extracted st) (file inp)) as [[[] d]|]; reflexivity.
Qed.

Lemma validategeotiff_STRICT W inp st mode :
  MODE.STRICT <= mode ->
  outcome (validategeotiff W inp mode st) =
  Return (driver_check (gdal_Open W (extracted st) (file inp)) ShortName "GTiff").
Proof.
  intros Hmode. apply Z.geb_le in Hmode.
  unfold validategeotiff. rewrite Hmode. unfold_stmts. cbn. rewrite <- driver_check_cases.
  destruct (gdal_Open W (extracted st) (file inp)) as [[[] d]|]; reflexivity.
Qed.

(** *** What the VERYSTRICT level of the GML validator computes *)

Lemma validategml_VERYSTRICT W inp st :
  validategml W inp MODE.VERYSTRICT st =
  (Return (gml_schema_check W inp),
   {| extracted := extracted st;
      logged := logged st ++
                LogInfo "validating GML; Mode: %s" MODE.VERYSTRICT ::
                match gml_schema_attempt W inp with
                | Return _ => []
                | Raise e => [LogWarning e]
                end |}).
Proof.
  unfold validategml, gml_schema_check, gml_schema_attempt, and_then.
  unfold_stmts. cbn.
  destruct (ogr_Open W (extracted st) (file inp)) as [[[] d]|]; cbn;
    destruct (urlopen W (schema (data_format inp))) as [response|]; cbn;
      rewrite <- ?app_assoc; try reflexivity;
    destruct (etree_parse W response) as [schema_doc|]; cbn;
      rewrite <- ?app_assoc; try reflexivity;
    destruct (etree_XMLSchema W schema_doc) as [xsd|]; cbn;
      rewrite <- ?app_assoc; try reflexivity;
    destruct (etree_parse W (stream inp)) as [doc|]; cbn;
      rewrite <- ?app_assoc; try reflexivity;
    destruct (XMLSchema_validate W xsd doc) as [b|]; cbn;
      rewrite <- ?app_assoc; reflexivity.
Qed.

(** ** The claims *)

(** C4. Each of the four validators, called with mode NONE, returns
    True, whatever the input's content, declared MIME type or file name
    and whatever its collaborators would answer. *)
Theorem mode_NONE_returns_True (W : World) (inp : ComplexInput) (st : State) :
  outcome (validategml W inp MODE.NONE st) = Return true /\
  outcome (validategeojson W inp MODE.NONE st) = Return true /\
  outcome (validateshapefile W inp MODE.NONE st) = Return true /\
  outcome (validategeotiff W inp MODE.NONE st) = Return true.
Proof. repeat split. Qed.

(** C5. Each validator, called with mode SIMPLE, returns a verdict, and
    the verdict is True if and only if the declared MIME type equals
    the type guessed from the file name or the canonical type of the
    format; so a declared type equal to the canonical one passes
    whatever type the file name suggests. *)
Theorem mode_SIMPLE_compares_mime_types
    (W : World) (inp : ComplexInput) (st : State) :
  (exists b, outcome (validategml W inp MODE.SIMPLE st) = Return b /\
             (b = true <-> mime_check W (GML (FORMATS W)) inp)) /\
  (exists b, outcome (validategeojson W inp MODE.SIMPLE st) = Return b /\
             (b = true <-> mime_check W (GEOJSON (FORMATS W)) inp)) /\
  (exists b, outcome (validateshapefile W inp MODE.SIMPLE st) = Return b /\
             (b = true <-> mime_check W (SHP (FORMATS W)) inp)) /\
  (exists b, outcome (validategeotiff W inp MODE.SIMPLE st) = Return b /\
             (b = true <-> mime_check W (GEOTIFF (FORMATS W)) inp)) /\
  (mime_type (data_format inp) = mime_type (GML (FORMATS W)) ->
   outcome (validategml W inp MODE.SIMPLE st) = Return true) /\
  (mime_type (data_format inp) = mime_type (GEOJSON (FORMATS W)) ->
   outcome (validategeojson W inp MODE.SIMPLE st) = Return true) /\
  (mime_type (data_format inp) = mime_type (SHP (FORMATS W)) ->
   outcome (validateshapefile W inp MODE.SIMPLE st) = Return true) /\
  (mime_type (data_format inp) = mime_type (GEOTIFF (FORMATS W)) ->
   outcome (validategeotiff W inp MODE.SIMPLE st) = Return true).
Proof.
  rewrite validategml_SIMPLE, validategeojson_SIMPLE,
    validateshapefile_SIMPLE, validategeotiff_SIMPLE.
  unfold mime_check.
  repeat split;
    try (eexists; split; [reflexivity | apply py_in_pair_true]);
    intros Hcanonical; f_equal; apply py_in_pair_true; right; exact Hcanonical.
Qed.

(** A GML input declared with the canonical GML type passes SIMPLE
    although its name, [plain.txt], suggests [text/plain]. *)
Lemma mode_SIMPLE_compares_mime_types_witness :
  fst (mimetypes_guess_type Fixture.world "/data/plain.txt") = Some "text/plain" /\
  outcome (validategml Fixture.world
             (Fixture.input "/data/plain.txt" (GML Fixture.formats) "" "/tmp/w")
             MODE.SIMPLE Fixture.start) = Return true.
Proof.
  split; [reflexivity|].
  apply (mode_SIMPLE_compares_mime_types Fixture.world
           (Fixture.input "/data/plain.txt" (GML Fixture.formats) "" "/tmp/w")
           Fixture.start).
  reflexivity.
Defined.

(** C9. When the input declares no MIME type (None) and the file name
    yields no guessed type (None), each validator passes the SIMPLE
    check: the absent declared type equals the absent guessed type. *)
Theorem mode_SIMPLE_absent_types_pass
    (W : World) (inp : ComplexInput) (st : State) :
  mime_type (data_format inp) = None ->
  fst (mimetypes_guess_type W (file inp)) = None ->
  outcome (validategml W inp MODE.SIMPLE st) = Return true /\
  outcome (validategeojson W inp MODE.SIMPLE st) = Return true /\
  outcome (validateshapefile W inp MODE.SIMPLE st) = Return true /\
  outcome (validategeotiff W inp MODE.SIMPLE st) = Return true.
Proof.
  intros Hdeclared Hguessed.
  rewrite validategml_SIMPLE, validategeojson_SIMPLE,
    validateshapefile_SIMPLE, validategeotiff_SIMPLE.
  rewrite Hdeclared, Hguessed.
  repeat split; f_equal; apply py_in_pair_true; left; reflexivity.
Qed.

Lemma mode_SIMPLE_absent_types_pass_witness :
  outcome (validategml Fixture.world Fixture.untyped MODE.SIMPLE Fixture.start)
  = Return true /\
  outcome (validategeotiff Fixture.world Fixture.untyped MODE.SIMPLE Fixture.start)
  = Return true.
Proof.
  destruct (mode_SIMPLE_absent_types_pass Fixture.world Fixture.untyped
              Fixture.start eq_refl eq_refl) as (Hgml & _ & _ & Htiff).
  split; [exact Hgml | exact Htiff].
Defined.

(** C6. At mode STRICT, validategml, validategeojson and
    validategeotiff return a verdict and raise nothing.  When the
    library's open call returns a recognised data source (an object
    that counts as true), the verdict is True exactly when the reported
    driver name is GML, GeoJSON, respectively the short name GTiff;
    when the call returns an empty result, the verdict is False. *)
Theorem mode_STRICT_compares_driver_name
    (W : World) (inp : ComplexInput) (st : State) :
  (forall ds, ogr_Open W (extracted st) (file inp) = Some ds ->
     truth ds = true ->
     (exists b, outcome (validategml W inp MODE.STRICT st) = Return b /\
                (b = true <-> GetName (GetDriver ds) = "GML")) /\
     (exists b, outcome (validategeojson W inp MODE.STRICT st) = Return b /\
                (b = true <-> GetName (GetDriver ds) = "GeoJSON"))) /\
  (forall ds, gdal_Open W (extracted st) (file inp) = Some ds ->
     truth ds = true ->
     exists b, outcome (validategeotiff W inp MODE.STRICT st) = Return b /\
               (b = true <-> ShortName (GetDriver ds) = "GTiff")) /\
  (truth_of_source (ogr_Open W (extracted st) (file inp)) = false ->
     outcome (validategml W inp MODE.STRICT st) = Return false /\
     outcome (validategeojson W inp MODE.STRICT st) = Return false) /\
  (truth_of_source (gdal_Open W (extracted st) (file inp)) = false ->
     outcome (validategeotiff W inp MODE.STRICT st) = Return false).
Proof.
  rewrite validategml_STRICT, validategeojson_STRICT.
  rewrite (validategeotiff_STRICT W inp st MODE.STRICT) by reflexivity.
  unfold driver_check.
  split; [|split; [|split]].
  - intros ds Hopen Htruth. rewrite Hopen. cbn. rewrite Htruth.
    split; eexists; (split; [reflexivity | apply bool_decide_eq_true]).
  - intros ds Hopen Htruth. rewrite Hopen. cbn. rewrite Htruth.
    eexists. split; [reflexivity | apply bool_decide_eq_true].
  - intros Hempty. rewrite Hempty. split; reflexivity.
  - intros Hempty. rewrite Hempty. reflexivity.
Qed.

(** A PNG image renamed to [.tif] is opened by the raster library under
    the driver PNG and fails; a file no vector driver opens fails too. *)
Lemma mode_STRICT_compares_driver_name_witness :
  (exists b, outcome (validategeotiff Fixture.world Fixture.photo MODE.STRICT
                        Fixture.start) = Return b /\
             (b = true <-> "PNG" = "GTiff")) /\
  outcome (validategml Fixture.world Fixture.untyped MODE.STRICT Fixture.start)
  = Return false.
Proof.
  destruct (mode_STRICT_compares_driver_name Fixture.world Fixture.photo
              Fixture.start) as (_ & Hraster & _ & _).
  destruct (mode_STRICT_compares_driver_name Fixture.world Fixture.untyped
              Fixture.start) as (_ & _ & Hempty & _).
  split.
  - exact (Hraster (mk_DataSource true (mk_Driver "PNG" "PNG")) eq_refl eq_refl).
  - exact (proj1 (Hempty eq_refl)).
Defined.

(** *** Runs that agree up to their logs *)

Section Alike.

Context {A B : Type}.

Lemma alike_ret (a : A) : alike (ret a) (ret a).
Proof. intros s1 s2 Hfiles. split; [reflexivity | exact Hfiles]. Qed.

Lemma alike_raise (e : exn) : alike (@raise A e) (raise e).
Proof. intros s1 s2 Hfiles. split; [reflexivity | exact Hfiles]. Qed.

Lemma alike_call (r : result A) : alike (call r) (call r).
Proof. intros s1 s2 Hfiles. split; [reflexivity | exact Hfiles]. Qed.

Lemma alike_bind (m1 m2 : M A) (k1 k2 : A -> M B) :
  alike m1 m2 -> (forall a, alike (k1 a) (k2 a)) ->
  alike (bind m1 k1) (bind m2 k2).
Proof.
  intros Hm Hk s1 s2 Hfiles. unfold bind.
  destruct (Hm s1 s2 Hfiles) as [Hout Hwritten].
  unfold outcome, files_written in *.
  destruct (m1 s1) as [[a1|e1] s1'], (m2 s2) as [[a2|e2] s2'];
    cbn in *; try discriminate.
  - injection Hout as ->. apply Hk, Hwritten.
  - injection Hout as ->. split; [reflexivity | exact Hwritten].
Qed.

Lemma alike_try_except (b1 b2 : M A) (c : exn -> bool)
    (h1 h2 : exn -> M A) :
  alike b1 b2 -> (forall e, alike (h1 e) (h2 e)) ->
  alike (try_except b1 c h1) (try_except b2 c h2).
Proof.
  intros Hb Hh s1 s2 Hfiles. unfold try_except.
  destruct (Hb s1 s2 Hfiles) as [Hout Hwritten].
  unfold outcome, files_written in *.
  destruct (b1 s1) as [[a1|e1] s1'], (b2 s2) as [[a2|e2] s2'];
    cbn in *; try discriminate.
  - split; [exact Hout | exact Hwritten].
  - injection Hout as ->. destruct (c e2).
    + apply Hh, Hwritten.
    + split; [reflexivity | exact Hwritten].
Qed.

End Alike.

Lemma alike_get_extracted : alike get_extracted get_extracted.
Proof.
  intros s1 s2 Hfiles. unfold get_extracted.
  split; cbn; [f_equal|]; exact Hfiles.
Qed.

Lemma alike_record_extracted member dir :
  alike (record_extracted member dir) (record_extracted member dir).
Proof.
  intros s1 s2 Hfiles. unfold record_extracted.
  split; cbn; [reflexivity | f_equal; exact Hfiles].
Qed.

Lemma alike_emit (r1 r2 : LogRecord) : alike (emit r1) (emit r2).
Proof. intros s1 s2 Hfiles. split; [reflexivity | exact Hfiles]. Qed.

Create HintDb alike discriminated.
#[global] Hint Resolve alike_ret alike_raise alike_call alike_get_extracted
  alike_record_extracted alike_emit : alike.

(** One step of a proof that two statement sequences are alike: peel a
    combinator, or split on what the scrutinised value is. *)
Ltac alike_step :=
  match goal with
  | |- alike (bind _ _) (bind _ _) => apply alike_bind; [|intros ?]
  | |- alike (try_except _ _ _) (try_except _ _ _) =>
      apply alike_try_except; [|intros ?]
  | |- alike (if ?c then _ else _) (if ?c then _ else _) => destruct c
  | |- alike (match ?x with Some _ => _ | None => _ end)
             (match ?x with Some _ => _ | None => _ end) => destruct x
  | |- alike (match ?x with Return _ => _ | Raise _ => _ end)
             (match ?x with Return _ => _ | Raise _ => _ end) => destruct x
  | |- alike _ _ => solve [auto with alike]
  end.

Section SameAnswers.

Variables W1 W2 : World.
Hypothesis HW : same_answers W1 W2.

(** Replace each collaborator of the first world by the one of the
    second. *)
Ltac to_second_world :=
  repeat first
    [ rewrite (sa_FORMATS _ _ HW)
    | rewrite (sa_module_dirname _ _ HW)
    | rewrite (sa_guess_type _ _ HW)
    | rewrite (sa_ogr_Open _ _ HW)
    | rewrite (sa_gdal_Open _ _ HW)
    | rewrite (sa_ZipFile _ _ HW)
    | rewrite (sa_extract _ _ HW)
    | rewrite (sa_urlopen _ _ HW)
    | rewrite (sa_parse _ _ HW)
    | rewrite (sa_XMLSchema _ _ HW)
    | rewrite (sa_validate _ _ HW)
    | rewrite (sa_json_load _ _ HW)
    | rewrite (sa_json_loads _ _ HW)
    | rewrite (sa_Draft4 _ _ HW) ].

Ltac alike_worlds := repeat (to_second_world; alike_step).

Lemma validategml_alike inp mode :
  alike (validategml W1 inp mode) (validategml W2 inp mode).
Proof.
  unfold validategml, LOGGER_info, LOGGER_warning. alike_worlds.
Qed.

Lemma validategeojson_alike inp mode :
  alike (validategeojson W1 inp mode) (validategeojson W2 inp mode).
Proof.
  unfold validategeojson, _get_schemas_home, LOGGER_info, LOGGER_debug.
  alike_worlds.
Qed.

Lemma validategeotiff_alike inp mode :
  alike (validategeotiff W1 inp mode) (validategeotiff W2 inp mode).
Proof.
  unfold validategeotiff, LOGGER_info. alike_worlds.
Qed.

Lemma extract_members_alike inp1 inp2 z names :
  tempdir inp1 = tempdir inp2 ->
  forall shape_name,
    alike (extract_members W1 inp1 z shape_name names)
          (extract_members W2 inp2 z shape_name names).
Proof.
  intros Hdir.
  induction names as [|name names IH]; intros shape_name; cbn.
  - auto with alike.
  - unfold extract_member. rewrite Hdir. alike_worlds; apply IH.
Qed.

(** The STRICT level of [validateshapefile] reads the input's file
    name and scratch directory only. *)
Lemma validateshapefile_alike inp1 inp2 mode1 mode2 :
  file inp1 = file inp2 -> tempdir inp1 = tempdir inp2 ->
  (MODE.STRICT <= mode1 /\ MODE.STRICT <= mode2) \/
  (mode1 = mode2 /\ data_format inp1 = data_format inp2) ->
  alike (validateshapefile W1 inp1 mode1) (validateshapefile W2 inp2 mode2).
Proof.
  intros Hfile Hdir Hmodes.
  assert (Hstrict :
    alike
      (do fs <- get_extracted;
       do z <- call (zipfile_ZipFile W1 fs (file inp1));
       do shape_name <- extract_members W1 inp1 z None (namelist z);
       do data_source <-
         (match shape_name with
          | Some shape_name =>
              if negb (bool_decide (shape_name = "")) then
                do fs <- get_extracted;
                ret (Some (ogr_Open W1 fs
                             (os_path.join (tempdir inp1) [shape_name])))
              else ret None
          | None => ret None
          end);
       do data_source <- read_local "data_source" data_source;
       match data_source with
       | Some ds =>
           if truth ds
           then ret (bool_decide (GetName (GetDriver ds) = "ESRI Shapefile"))
           else ret false
       | None => ret false
       end)
      (do fs <- get_extracted;
       do z <- call (zipfile_ZipFile W2 fs (file inp2));
       do shape_name <- extract_members W2 inp2 z None (namelist z);
       do data_source <-
         (match shape_name with
          | Some shape_name =>
              if negb (bool_decide (shape_name = "")) then
                do fs <- get_extracted;
                ret (Some (ogr_Open W2 fs
                             (os_path.join (tempdir inp2) [shape_name])))
              else ret None
          | None => ret None
          end);
       do data_source <- read_local "data_source" data_source;
       match data_source with
       | Some ds =>
           if truth ds
           then ret (bool_decide (GetName (GetDriver ds) = "ESRI Shapefile"))
           else ret false
       | None => ret false
       end)).
  { rewrite Hfile, Hdir. unfold read_local.
    apply alike_bind; [auto with alike | intros fs].
    to_second_world.
    apply alike_bind; [auto with alike | intros z].
    apply alike_bind;
      [apply extract_members_alike; exact Hdir | intros shape_name].
    alike_worlds. }
  unfold validateshapefile, LOGGER_info.
  apply alike_bind; [auto with alike | intros _].
  apply alike_bind; [| intros passed; auto with alike].
  destruct Hmodes as [[H1 H2] | [-> Hformat]].
  - apply Z.geb_le in H1, H2. rewrite H1, H2. exact Hstrict.
  - destruct (mode2 >=? MODE.STRICT); [exact Hstrict |].
    rewrite Hfile, Hformat. to_second_world. auto with alike.
Qed.

End SameAnswers.

Lemma same_answers_refl (W : World) : same_answers W W.
Proof. constructor; reflexivity. Qed.

(** *** What the higher levels of the other validators return *)

Arguments os_path.join : simpl never.

Lemma validateshapefile_STRICT_returns W inp st mode b :
  MODE.STRICT <= mode ->
  outcome (validateshapefile W inp mode st) = Return b ->
  exists fs name,
    b = driver_check (ogr_Open W fs (os_path.join (tempdir inp) [name]))
          GetName "ESRI Shapefile".
Proof.
  intros Hmode. apply Z.geb_le in Hmode.
  unfold validateshapefile. rewrite Hmode. unfold_stmts. cbn.
  destruct (zipfile_ZipFile W (extracted st) (file inp)) as [z|e]; cbn;
    [|discriminate].
  destruct (extract_members W inp z None (namelist z) _)
    as [[[name|]|e] s']; cbn; try discriminate.
  destruct (bool_decide (name = "")); cbn; [discriminate|].
  destruct (ogr_Open W (extracted s') _) eqn:Hopen; cbn.
  - destruct (truth d) eqn:Htruth; cbn;
      intros [= <-]; exists (extracted s'), name; rewrite Hopen;
      unfold driver_check; cbn; rewrite Htruth; reflexivity.
  - intros [= <-]. exists (extracted s'), name. rewrite Hopen. reflexivity.
Qed.

Lemma validategeojson_VERYSTRICT_returns W inp st b :
  outcome (validategeojson W inp MODE.VERYSTRICT st) = Return b ->
  (b = true <-> geojson_schema_valid W (extracted st) inp).
Proof.
  unfold validategeojson, geojson_schema_valid, geojson_schema_files,
    bundled_validator.
  unfold_stmts. cbn.
  set (home := os_path.join (module_dirname W) [os_path.pardir; "schemas"]).
  set (schema_home := os_path.join home ["geojson"]).
  destruct (ogr_Open W (extracted st) (file inp)) as [[[] d]|]; cbn;
    (destruct (json_load_file W (extracted st)
                 (os_path.join schema_home ["geojson.json"])) as [base|e0]; cbn;
     [|intros [=]];
     destruct (json_load_file W (extracted st)
                 (os_path.join schema_home ["crs.json"])) as [crs|e1]; cbn;
     [|intros [=]];
     destruct (json_load_file W (extracted st)
                 (os_path.join schema_home ["bbox.json"])) as [bbox|e2]; cbn;
     [|intros [=]];
     destruct (json_load_file W (extracted st)
                 (os_path.join schema_home ["geometry.json"])) as [geom|e3]; cbn;
     [|intros [=]];
     destruct (json_loads W (stream inp)) as [instance|e4] eqn:Hloads; cbn;
     [destruct (Draft4Validator_validate W _ instance) as [e5|] eqn:Hvalid; cbn;
      [destruct (isinstance e5 ValidationError); cbn|]
     |destruct (isinstance e4 ValidationError); cbn];
     intros [= <-];
     (split;
      [ try discriminate; intros _;
        exists base, crs, bbox, geom, instance; auto
      | try reflexivity;
        intros (base' & crs' & bbox' & geom' & instance' & Hl & Hi & Hv);
        try discriminate;
        injection Hl as <- <- <- <-; injection Hi as <-;
        rewrite Hvalid in Hv; discriminate ])).
Qed.

(** *** The loop over the archive members *)

Lemma is_shp_nonempty (name : string) : is_shp name = true -> name <> "".
Proof. intros Hshp ->. discriminate Hshp. Qed.

Lemma last_shp_is_shp (names : list string) (name : string) :
  last_shp names = Some name -> is_shp name = true.
Proof.
  unfold last_shp. intros Hlast.
  apply last_Some in Hlast as [front Hfront].
  assert (Hin : In name (List.filter is_shp names)).
  { rewrite Hfront. apply in_or_app. right. left. reflexivity. }
  apply filter_In in Hin. apply Hin.
Qed.

Lemma last_shp_cons (name : string) (names : list string) :
  last_shp (name :: names) =
  match last_shp names with
  | Some later => Some later
  | None => if is_shp name then Some name else None
  end.
Proof.
  unfold last_shp. cbn. destruct (is_shp name).
  - apply last_cons.
  - destruct (last (List.filter is_shp names)); reflexivity.
Qed.

(** When no extraction raises, the loop extracts every member, in
    order, and leaves in [shape_name] the last member with extension
    [.shp], if there is one. *)
Lemma extract_members_ok W inp z names :
  (forall fs member, ZipFile_extract W fs z member (tempdir inp) = None) ->
  forall shape_name s,
    extract_members W inp z shape_name names s =
    (Return (match last_shp names with
             | Some name => Some name
             | None => shape_name
             end),
     {| extracted := extracted s ++ map (fun n => (n, tempdir inp)) names;
        logged := logged s |}).
Proof.
  intros Hextract.
  induction names as [|name names IH]; intros shape_name s.
  - cbn. rewrite app_nil_r. destruct s; reflexivity.
  - cbn [extract_members]. unfold bind at 1. unfold extract_member.
    unfold_stmts. rewrite Hextract. cbn [fst snd extracted logged].
    fold (is_shp name). rewrite last_shp_cons.
    destruct (is_shp name); rewrite IH; cbn [extracted logged];
      rewrite <- app_assoc; destruct (last_shp names); reflexivity.
Qed.

(** The STRICT level of [validateshapefile] on an archive that opens and
    extracts without error. *)
Lemma validateshapefile_STRICT_ok W inp st z :
  zipfile_ZipFile W (extracted st) (file inp) = Return z ->
  (forall fs member, ZipFile_extract W fs z member (tempdir inp) = None) ->
  let written : list (string * string) :=
    (extracted st ++ map (fun n => (n, tempdir inp)) (namelist z))%list in
  validateshapefile W inp MODE.STRICT st =
  (match last_shp (namelist z) with
   | Some name =>
       Return (driver_check
                 (ogr_Open W written (os_path.join (tempdir inp) [name]))
                 GetName "ESRI Shapefile")
   | None =>
       Raise (mk_exn UnboundLocalError
                "local variable 'data_source' referenced before assignment")
   end,
   {| extracted := written;
      logged := logged st ++
                [LogInfo "validating Shapefile; Mode: %s" MODE.STRICT] |}).
Proof.
  intros Hzip Hextract written.
  unfold validateshapefile. unfold_stmts. cbn -[extract_members].
  rewrite Hzip. rewrite (extract_members_ok W inp z _ Hextract).
  cbn [extracted logged]. fold written.
  destruct (last_shp (namelist z)) as [name|] eqn:Hlast.
  - apply last_shp_is_shp, is_shp_nonempty in Hlast.
    rewrite (bool_decide_eq_false_2 (name = "")) by exact Hlast.
    cbn. rewrite <- driver_check_cases.
    destruct (ogr_Open W written (os_path.join (tempdir inp) [name]))
      as [[[] d]|]; reflexivity.
  - reflexivity.
Qed.

(** C7. For every input, validateshapefile called with mode VERYSTRICT
    ends as it does with mode STRICT (same verdict or same exception,
    same files extracted), and validategeotiff called with mode
    VERYSTRICT returns the verdict it returns with mode STRICT: these
    two validators have no check above STRICT. *)
Theorem VERYSTRICT_equals_STRICT_without_schema
    (W : World) (inp : ComplexInput) (st : State) :
  outcome (validateshapefile W inp MODE.VERYSTRICT st) =
  outcome (validateshapefile W inp MODE.STRICT st) /\
  files_written (validateshapefile W inp MODE.VERYSTRICT st) =
  files_written (validateshapefile W inp MODE.STRICT st) /\
  outcome (validategeotiff W inp MODE.VERYSTRICT st) =
  outcome (validategeotiff W inp MODE.STRICT st).
Proof.
  assert (Hshape : agree (validateshapefile W inp MODE.VERYSTRICT st)
                         (validateshapefile W inp MODE.STRICT st)).
  { apply (validateshapefile_alike W W (same_answers_refl W));
      try reflexivity.
    left. unfold MODE.STRICT, MODE.VERYSTRICT. lia. }
  destruct Hshape as [Hout Hfiles].
  split; [exact Hout | split; [exact Hfiles |]].
  rewrite !validategeotiff_STRICT;
    [reflexivity | reflexivity | unfold MODE.STRICT, MODE.VERYSTRICT; lia].
Qed.

(** C3. The boolean a validator returns is the result of the highest
    check that ran, not a conjunction with the lower ones.  At STRICT
    the verdict is the driver check's result, and it is the same
    whatever format the input declares, hence whether the SIMPLE check
    would pass or fail; at VERYSTRICT the GML and GeoJSON verdicts are
    the schema check's result, and the Shapefile and GeoTIFF verdicts
    are their STRICT ones. *)
Theorem verdict_is_result_of_highest_check
    (W : World) (inp : ComplexInput) (st : State) :
  (* STRICT: the verdict is the driver check *)
  outcome (validategml W inp MODE.STRICT st) =
    Return (driver_check (ogr_Open W (extracted st) (file inp))
              GetName "GML") /\
  outcome (validategeojson W inp MODE.STRICT st) =
    Return (driver_check (ogr_Open W (extracted st) (file inp))
              GetName "GeoJSON") /\
  outcome (validategeotiff W inp MODE.STRICT st) =
    Return (driver_check (gdal_Open W (extracted st) (file inp))
              ShortName "GTiff") /\
  (forall b, outcome (validateshapefile W inp MODE.STRICT st) = Return b ->
     exists fs name,
       b = driver_check (ogr_Open W fs (os_path.join (tempdir inp) [name]))
             GetName "ESRI Shapefile") /\
  (* STRICT: the declared format, which decides SIMPLE, plays no part *)
  (forall declared,
     outcome (validategml W (redeclare inp declared) MODE.STRICT st) =
     outcome (validategml W inp MODE.STRICT st) /\
     outcome (validategeojson W (redeclare inp declared) MODE.STRICT st) =
     outcome (validategeojson W inp MODE.STRICT st) /\
     outcome (validateshapefile W (redeclare inp declared) MODE.STRICT st) =
     outcome (validateshapefile W inp MODE.STRICT st) /\
     outcome (validategeotiff W (redeclare inp declared) MODE.STRICT st) =
     outcome (validategeotiff W inp MODE.STRICT st)) /\
  (* VERYSTRICT: the verdict is the schema check, where there is one *)
  outcome (validategml W inp MODE.VERYSTRICT st) =
    Return (gml_schema_check W inp) /\
  (forall b, outcome (validategeojson W inp MODE.VERYSTRICT st) = Return b ->
     (b = true <-> geojson_schema_valid W (extracted st) inp)) /\
  outcome (validategeotiff W inp MODE.VERYSTRICT st) =
    Return (driver_check (gdal_Open W (extracted st) (file inp))
              ShortName "GTiff") /\
  (forall b, outcome (validateshapefile W inp MODE.VERYSTRICT st) = Return b ->
     exists fs name,
       b = driver_check (ogr_Open W fs (os_path.join (tempdir inp) [name]))
             GetName "ESRI Shapefile").
Proof.
  assert (Hstrict : MODE.STRICT <= MODE.STRICT) by reflexivity.
  assert (Hvery : MODE.STRICT <= MODE.VERYSTRICT)
    by (unfold MODE.STRICT, MODE.VERYSTRICT; lia).
  split; [apply validategml_STRICT|].
  split; [apply validategeojson_STRICT|].
  split; [apply validategeotiff_STRICT, Hstrict|].
  split; [intros b; apply validateshapefile_STRICT_returns, Hstrict|].
  split.
  { intros declared.
    rewrite !validategml_STRICT, !validategeojson_STRICT.
    rewrite !(validategeotiff_STRICT _ _ _ MODE.STRICT) by exact Hstrict.
    repeat split.
    apply (validateshapefile_alike W W (same_answers_refl W));
      try reflexivity.
    left. split; exact Hstrict. }
  split; [rewrite validategml_VERYSTRICT; reflexivity|].
  split; [intros b; apply validategeojson_VERYSTRICT_returns|].
  split; [apply validategeotiff_STRICT, Hvery|].
  intros b. apply validateshapefile_STRICT_returns, Hvery.
Qed.

(** The verdict is no conjunction: a GML file declared as plain text
    fails SIMPLE and passes STRICT. *)
Lemma verdict_is_result_of_highest_check_witness :
  outcome (validategml Fixture.world
             (redeclare Fixture.parcels (mk_Format (Some "text/plain") None))
             MODE.SIMPLE Fixture.start) = Return false /\
  outcome (validategml Fixture.world
             (redeclare Fixture.parcels (mk_Format (Some "text/plain") None))
             MODE.STRICT Fixture.start) = Return true /\
  exists fs name,
    true = driver_check
             (ogr_Open Fixture.world fs
                (os_path.join (tempdir Fixture.roads) [name]))
             GetName "ESRI Shapefile".
Proof.
  destruct (verdict_is_result_of_highest_check Fixture.world Fixture.parcels
              Fixture.start) as (Hgml & _ & _ & _ & Hdeclared & _).
  destruct (verdict_is_result_of_highest_check Fixture.world Fixture.roads
              Fixture.start) as (_ & _ & _ & Hshape & _).
  split; [reflexivity|].
  split.
  - rewrite (proj1 (Hdeclared (mk_Format (Some "text/plain") None))).
    rewrite Hgml. reflexivity.
  - apply Hshape. reflexivity.
Defined.

(** C10. validateshapefile at mode STRICT, on an archive that opens and
    whose members all extract, extracts every member of the archive
    into the input's scratch directory, in the order of the member
    list; and when the archive has members with extension [.shp], the
    last of them in the member list is the one opened with the vector
    driver, from the scratch directory and after all extractions, and
    the check of its driver name is the verdict. *)
Theorem shapefile_extracts_all_and_opens_last_shp
    (W : World) (inp : ComplexInput) (st : State) (z : ZipFile) :
  zipfile_ZipFile W (extracted st) (file inp) = Return z ->
  (forall fs member, ZipFile_extract W fs z member (tempdir inp) = None) ->
  files_written (validateshapefile W inp MODE.STRICT st) =
    (extracted st ++ map (fun n => (n, tempdir inp)) (namelist z))%list /\
  forall name,
    last_shp (namelist z) = Some name ->
    outcome (validateshapefile W inp MODE.STRICT st) =
    Return (driver_check
              (ogr_Open W
                 (files_written (validateshapefile W inp MODE.STRICT st))
                 (os_path.join (tempdir inp) [name]))
              GetName "ESRI Shapefile").
Proof.
  intros Hzip Hextract.
  rewrite (validateshapefile_STRICT_ok W inp st z Hzip Hextract).
  split; [reflexivity|].
  intros name Hlast. unfold outcome, files_written. cbn [fst snd extracted].
  rewrite Hlast. reflexivity.
Qed.

(** The archive [roads.zip] holds [old/roads.SHP] before [roads.shp]:
    all five members are extracted and [/tmp/w3/roads.shp] is opened. *)
Lemma shapefile_extracts_all_and_opens_last_shp_witness :
  files_written (validateshapefile Fixture.world Fixture.roads MODE.STRICT
                   Fixture.start) =
    [("roads.dbf", "/tmp/w3"); ("old/roads.SHP", "/tmp/w3");
     ("roads.shx", "/tmp/w3"); ("roads.shp", "/tmp/w3");
     ("roads.prj", "/tmp/w3")] /\
  outcome (validateshapefile Fixture.world Fixture.roads MODE.STRICT
             Fixture.start) =
  Return (driver_check
            (ogr_Open Fixture.world
               (files_written (validateshapefile Fixture.world Fixture.roads
                                 MODE.STRICT Fixture.start))
               "/tmp/w3/roads.shp")
            GetName "ESRI Shapefile").
Proof.
  destruct (shapefile_extracts_all_and_opens_last_shp Fixture.world
              Fixture.roads Fixture.start
              (mk_ZipFile "/data/roads.zip"
                 ["roads.dbf"; "old/roads.SHP"; "roads.shx"; "roads.shp";
                  "roads.prj"])
              eq_refl (fun _ _ => eq_refl)) as [Hfiles Hopened].
  split.
  - exact Hfiles.
  - exact (Hopened "roads.shp" eq_refl).
Defined.

(** C2. An archive without any member of extension [.shp] makes
    validateshapefile at mode STRICT raise [UnboundLocalError] instead
    of returning False: [data_source] is read although the branch that
    binds it did not run. *)
Theorem shapefile_without_shp_raises :
  last_shp (namelist (mk_ZipFile "/data/notes.zip" ["readme.txt"])) = None /\
  validateshapefile Fixture.world Fixture.notes MODE.STRICT Fixture.start =
  (Raise (mk_exn UnboundLocalError
            "local variable 'data_source' referenced before assignment"),
   {| extracted := [("readme.txt", "/tmp/w4")];
      logged := [LogInfo "validating Shapefile; Mode: %s" MODE.STRICT] |}).
Proof. split; reflexivity. Qed.

(** *** The VERYSTRICT level of the GeoJSON validator on a rejected
    document *)

Lemma validategeojson_VERYSTRICT_rejects W inp st
    geojson_base crs bbox geometry instance e :
  map (json_load_file W (extracted st)) (geojson_schema_files W) =
    [Return geojson_base; Return crs; Return bbox; Return geometry] ->
  json_loads W (stream inp) = Return instance ->
  Draft4Validator_validate W
    (bundled_validator geojson_base crs bbox geometry) instance = Some e ->
  isinstance e ValidationError = true ->
  outcome (validategeojson W inp MODE.VERYSTRICT st) = Return false.
Proof.
  unfold geojson_schema_files, bundled_validator. cbn.
  intros [= Hbase Hcrs Hbbox Hgeometry] Hloads Hvalid Hclass.
  unfold validategeojson. unfold_stmts. cbn.
  destruct (ogr_Open W (extracted st) (file inp)) as [[[] d]|]; cbn;
    rewrite Hbase, Hcrs, Hbbox, Hgeometry, Hloads; cbn;
    rewrite Hvalid; cbn; rewrite Hclass; reflexivity.
Qed.

(** What the two handlers of the VERYSTRICT level catch.  validategml
    returns a verdict whatever its collaborators do: an exception raised
    while the schema is fetched, parsed or compiled, or while the input
    is parsed or validated, is logged as a warning and the verdict is
    False.  validategeojson returns False when the validation of the
    parsed document raises [jsonschema.ValidationError]. *)
Lemma VERYSTRICT_handlers
    (W : World) (inp : ComplexInput) (st : State) :
  (exists b, outcome (validategml W inp MODE.VERYSTRICT st) = Return b) /\
  (forall e, gml_schema_attempt W inp = Raise e ->
     outcome (validategml W inp MODE.VERYSTRICT st) = Return false /\
     log_of (validategml W inp MODE.VERYSTRICT st) =
       (logged st ++
        [LogInfo "validating GML; Mode: %s" MODE.VERYSTRICT; LogWarning e])%list) /\
  (forall geojson_base crs bbox geometry instance e,
     map (json_load_file W (extracted st)) (geojson_schema_files W) =
       [Return geojson_base; Return crs; Return bbox; Return geometry] ->
     json_loads W (stream inp) = Return instance ->
     Draft4Validator_validate W
       (bundled_validator geojson_base crs bbox geometry) instance = Some e ->
     isinstance e ValidationError = true ->
     outcome (validategeojson W inp MODE.VERYSTRICT st) = Return false).
Proof.
  rewrite validategml_VERYSTRICT.
  split; [eexists; reflexivity|].
  split.
  - intros e Hraised. unfold gml_schema_check, outcome, log_of.
    rewrite Hraised. split; reflexivity.
  - intros geojson_base crs bbox geometry instance e.
    apply validategeojson_VERYSTRICT_rejects.
Qed.

(** A GML input whose declared schema URL cannot be fetched, and a JSON
    document the bundled schema rejects: both verdicts are False. *)
Lemma VERYSTRICT_handlers_witness :
  outcome (validategml Fixture.world
             (redeclare Fixture.parcels
                (mk_Format (Some "application/gml+xml")
                           (Some "http://unreachable.invalid/feature.xsd")))
             MODE.VERYSTRICT Fixture.start) = Return false /\
  outcome (validategeojson Fixture.world Fixture.line_json MODE.VERYSTRICT
             Fixture.start) = Return false.
Proof.
  destruct (VERYSTRICT_handlers Fixture.world
              (redeclare Fixture.parcels
                 (mk_Format (Some "application/gml+xml")
                            (Some "http://unreachable.invalid/feature.xsd")))
              Fixture.start) as (_ & Hgml & _).
  destruct (VERYSTRICT_handlers Fixture.world Fixture.line_json
              Fixture.start) as (_ & _ & Hjson).
  split.
  - exact (proj1 (Hgml (mk_exn IOError "<urlopen error timed out>") eq_refl)).
  - exact (Hjson _ _ _ _ _
             (mk_exn ValidationError
                "is not valid under any of the given schemas")
             eq_refl eq_refl eq_refl eq_refl).
Defined.

(** C1. The claim holds for validategml and is broken by
    validategeojson.  For an input whose stream holds a text that is no
    JSON, [json.loads] raises [ValueError] inside the [try] of
    validategeojson; its handler names [jsonschema.ValidationError]
    only, so at VERYSTRICT the exception reaches the caller instead of
    becoming False.  validategml, given the same malformed text at
    VERYSTRICT, returns False, and validategeojson itself returns a
    verdict for this input at STRICT. *)
Theorem geojson_VERYSTRICT_lets_ValueError_through :
  json_loads Fixture.world (stream Fixture.broken_json) =
    Raise (mk_exn ValueError "No JSON object could be decoded") /\
  outcome (validategeojson Fixture.world Fixture.broken_json MODE.VERYSTRICT
             Fixture.start) =
    Raise (mk_exn ValueError "No JSON object could be decoded") /\
  outcome (validategeojson Fixture.world Fixture.broken_json MODE.VERYSTRICT
             Fixture.start) <> Return false /\
  outcome (validategml Fixture.world
             (Fixture.input "/data/parcels.gml" (GML Fixture.formats)
                (stream Fixture.broken_json) "/tmp/w1")
             MODE.VERYSTRICT Fixture.start) = Return false /\
  outcome (validategeojson Fixture.world Fixture.broken_json MODE.STRICT
             Fixture.start) = Return true.
Proof.
  split; [reflexivity|].
  split; [reflexivity|].
  split; [discriminate|].
  split; reflexivity.
Qed.

(** ** Further properties of the validators *)

(** *** Mode thresholds *)

Lemma geb_below (mode level : Z) : mode < level -> (mode >=? level) = false.
Proof. intros Hlt. rewrite Z.geb_leb. apply Z.leb_gt. exact Hlt. Qed.

Lemma geb_above (mode level : Z) : level <= mode -> (mode >=? level) = true.
Proof. intros Hle. apply Z.geb_le. exact Hle. Qed.

(** *** Complete runs of the validators that never raise *)

Lemma validategeotiff_run W inp mode st :
  validategeotiff W inp mode st =
  (Return (if mode >=? MODE.STRICT
           then driver_check (gdal_Open W (extracted st) (file inp))
                  ShortName "GTiff"
           else if mode >=? MODE.SIMPLE
           then py_in (mime_type (data_format inp))
                  {[ fst (mimetypes_guess_type W (file inp));
                     mime_type (GEOTIFF (FORMATS W)) ]}
           else mode >=? MODE.NONE),
   {| extracted := extracted st;
      logged := logged st ++ [LogInfo "Validating Shapefile; Mode: %s" mode] |}).
Proof.
  unfold validategeotiff, driver_check. unfold_stmts.
  destruct (mode >=? MODE.STRICT), (mode >=? MODE.SIMPLE),
    (mode >=? MODE.NONE); cbn;
    destruct (mimetypes_guess_type W (file inp)); cbn;
    try reflexivity;
    destruct (gdal_Open W (extracted st) (file inp)) as [[[] d]|];
    reflexivity.
Qed.

Lemma validategml_run W inp mode st :
  validategml W inp mode st =
  (Return (if mode >=? MODE.VERYSTRICT then gml_schema_check W inp
           else if mode >=? MODE.STRICT
           then driver_check (ogr_Open W (extracted st) (file inp))
                  GetName "GML"
           else if mode >=? MODE.SIMPLE
           then py_in (mime_type (data_format inp))
                  {[ fst (mimetypes_guess_type W (file inp));
                     mime_type (GML (FORMATS W)) ]}
           else mode >=? MODE.NONE),
   {| extracted := extracted st;
      logged := logged st ++
                LogInfo "validating GML; Mode: %s" mode ::
                (if mode >=? MODE.VERYSTRICT
                 then match gml_schema_attempt W inp with
                      | Return _ => []
                      | Raise e => [LogWarning e]
                      end
                 else []) |}).
Proof.
  unfold validategml, driver_check, gml_schema_check, gml_schema_attempt,
    and_then.
  unfold_stmts.
  destruct (mode >=? MODE.VERYSTRICT), (mode >=? MODE.STRICT),
    (mode >=? MODE.SIMPLE), (mode >=? MODE.NONE); cbn;
    destruct (mimetypes_guess_type W (file inp)); cbn;
    try reflexivity;
    try (destruct (ogr_Open W (extracted st) (file inp)) as [[[] d]|]; cbn);
    try reflexivity;
    (destruct (urlopen W (schema (data_format inp))) as [response|]; cbn;
       rewrite <- ?app_assoc; try reflexivity;
     destruct (etree_parse W response) as [schema_doc|]; cbn;
       rewrite <- ?app_assoc; try reflexivity;
     destruct (etree_XMLSchema W schema_doc) as [xsd|]; cbn;
       rewrite <- ?app_assoc; try reflexivity;
     destruct (etree_parse W (stream inp)) as [doc|]; cbn;
       rewrite <- ?app_assoc; try reflexivity;
     destruct (XMLSchema_validate W xsd doc) as [b|]; cbn;
       rewrite <- ?app_assoc; reflexivity).
Qed.

Lemma validategeojson_run_below W inp mode st :
  mode < MODE.VERYSTRICT ->
  validategeojson W inp mode st =
  (Return (if mode >=? MODE.STRICT
           then driver_check (ogr_Open W (extracted st) (file inp))
                  GetName "GeoJSON"
           else if mode >=? MODE.SIMPLE
           then py_in (mime_type (data_format inp))
                  {[ fst (mimetypes_guess_type W (file inp));
                     mime_type (GEOJSON (FORMATS W)) ]}
           else mode >=? MODE.NONE),
   {| extracted := extracted st;
      logged := logged st ++ [LogInfo "validating GeoJSON; Mode: %s" mode] |}).
Proof.
  intros Hbelow. unfold validategeojson, driver_check.
  rewrite (geb_below _ _ Hbelow). unfold_stmts.
  destruct (mode >=? MODE.STRICT), (mode >=? MODE.SIMPLE),
    (mode >=? MODE.NONE); cbn;
    destruct (mimetypes_guess_type W (file inp)); cbn;
    try reflexivity;
    destruct (ogr_Open W (extracted st) (file inp)) as [[[] d]|];
    reflexivity.
Qed.

Lemma validateshapefile_run_below W inp mode st :
  mode < MODE.STRICT ->
  validateshapefile W inp mode st =
  (Return (if mode >=? MODE.SIMPLE
           then py_in (mime_type (data_format inp))
                  {[ fst (mimetypes_guess_type W (file inp));
                     mime_type (SHP (FORMATS W)) ]}
           else mode >=? MODE.NONE),
   {| extracted := extracted st;
      logged := logged st ++ [LogInfo "validating Shapefile; Mode: %s" mode] |}).
Proof.
  intros Hbelow. unfold validateshapefile.
  rewrite (geb_below _ _ Hbelow). unfold_stmts.
  destruct (mode >=? MODE.SIMPLE), (mode >=? MODE.NONE); cbn;
    destruct (mimetypes_guess_type W (file inp)); reflexivity.
Qed.

Lemma validategeojson_alike_top W inp mode1 mode2 :
  MODE.VERYSTRICT <= mode1 -> MODE.VERYSTRICT <= mode2 ->
  alike (validategeojson W inp mode1) (validategeojson W inp mode2).
Proof.
  intros H1 H2. unfold validategeojson, _get_schemas_home, LOGGER_info,
    LOGGER_debug.
  rewrite (geb_above mode1 MODE.VERYSTRICT H1),
    (geb_above mode2 MODE.VERYSTRICT H2).
  rewrite !(geb_above _ MODE.STRICT)
    by (unfold MODE.STRICT, MODE.VERYSTRICT in *; lia).
  repeat alike_step.
Qed.

(** The GeoJSON validator has no statement that extracts a file. *)
Lemma validategeojson_files W inp mode st :
  files_written (validategeojson W inp mode st) = extracted st.
Proof.
  destruct (Z_lt_ge_dec mode MODE.VERYSTRICT) as [Hbelow|Habove].
  - rewrite validategeojson_run_below by exact Hbelow. reflexivity.
  - apply Z.ge_le in Habove.
    unfold validategeojson.
    rewrite (geb_above mode MODE.VERYSTRICT Habove).
    rewrite (geb_above mode MODE.STRICT)
      by (unfold MODE.STRICT, MODE.VERYSTRICT in *; lia).
    unfold_stmts. cbn.
    repeat match goal with
           | |- context [ogr_Open ?w ?fs ?p] =>
               destruct (ogr_Open w fs p) as [[[] ?]|]; cbn
           | |- context [json_load_file ?w ?fs ?p] =>
               destruct (json_load_file w fs p); cbn
           | |- context [json_loads ?w ?t] => destruct (json_loads w t); cbn
           | |- context [Draft4Validator_validate ?w ?v ?i] =>
               destruct (Draft4Validator_validate w v i); cbn
           | |- context [isinstance ?e ?c] => destruct (isinstance e c); cbn
           end; reflexivity.
Qed.

(** X1. A mode below NONE makes each validator return False: no level
    is reached and [passed] keeps its initial value. *)
Theorem mode_below_NONE_returns_False
    (W : World) (inp : ComplexInput) (mode : Z) (st : State) :
  mode < MODE.NONE ->
  outcome (validategml W inp mode st) = Return false /\
  outcome (validategeojson W inp mode st) = Return false /\
  outcome (validateshapefile W inp mode st) = Return false /\
  outcome (validategeotiff W inp mode st) = Return false.
Proof.
  intros Hbelow.
  assert (H0 : (mode >=? MODE.NONE) = false) by (apply geb_below; exact Hbelow).
  assert (H1 : (mode >=? MODE.SIMPLE) = false)
    by (apply geb_below; unfold MODE.NONE, MODE.SIMPLE in *; lia).
  assert (H2 : (mode >=? MODE.STRICT) = false)
    by (apply geb_below; unfold MODE.NONE, MODE.STRICT in *; lia).
  assert (H3 : (mode >=? MODE.VERYSTRICT) = false)
    by (apply geb_below; unfold MODE.NONE, MODE.VERYSTRICT in *; lia).
  rewrite validategml_run, validategeotiff_run.
  rewrite validategeojson_run_below
    by (unfold MODE.NONE, MODE.VERYSTRICT in *; lia).
  rewrite validateshapefile_run_below
    by (unfold MODE.NONE, MODE.STRICT in *; lia).
  unfold outcome. cbn [fst]. rewrite H0, H1, H2, H3.
  repeat split.
Qed.

Lemma mode_below_NONE_returns_False_witness :
  outcome (validategml Fixture.world Fixture.parcels (-1) Fixture.start)
  = Return false /\
  outcome (validategeotiff Fixture.world Fixture.dem (-1) Fixture.start)
  = Return false.
Proof.
  destruct (mode_below_NONE_returns_False Fixture.world Fixture.parcels (-1)
              Fixture.start eq_refl) as (Hgml & _).
  destruct (mode_below_NONE_returns_False Fixture.world Fixture.dem (-1)
              Fixture.start eq_refl) as (_ & _ & _ & Htiff).
  split; [exact Hgml | exact Htiff].
Defined.

(** X2. A mode above the highest level of a validator acts as that
    level: above VERYSTRICT, validategml and validategeojson end as at
    VERYSTRICT; above STRICT, validateshapefile and validategeotiff end
    as at STRICT (same verdict or exception, same files extracted). *)
Theorem mode_above_top_level_is_top_level
    (W : World) (inp : ComplexInput) (mode : Z) (st : State) :
  (MODE.VERYSTRICT <= mode ->
   agree (validategml W inp mode st)
         (validategml W inp MODE.VERYSTRICT st) /\
   agree (validategeojson W inp mode st)
         (validategeojson W inp MODE.VERYSTRICT st)) /\
  (MODE.STRICT <= mode ->
   agree (validateshapefile W inp mode st)
         (validateshapefile W inp MODE.STRICT st) /\
   agree (validategeotiff W inp mode st)
         (validategeotiff W inp MODE.STRICT st)).
Proof.
  split.
  - intros Habove. split.
    + rewrite !validategml_run.
      rewrite (geb_above mode MODE.VERYSTRICT Habove). split; reflexivity.
    + apply validategeojson_alike_top;
        [exact Habove | reflexivity | reflexivity].
  - intros Habove. split.
    + apply (validateshapefile_alike W W (same_answers_refl W));
        try reflexivity.
      left. split; [exact Habove | reflexivity].
    + rewrite !validategeotiff_run.
      rewrite (geb_above mode MODE.STRICT Habove). split; reflexivity.
Qed.

Lemma mode_above_top_level_is_top_level_witness :
  outcome (validategeojson Fixture.world Fixture.line_json 7 Fixture.start) =
  outcome (validategeojson Fixture.world Fixture.line_json MODE.VERYSTRICT
             Fixture.start) /\
  outcome (validateshapefile Fixture.world Fixture.roads 7 Fixture.start) =
  outcome (validateshapefile Fixture.world Fixture.roads MODE.STRICT
             Fixture.start).
Proof.
  destruct (mode_above_top_level_is_top_level Fixture.world Fixture.line_json
              7 Fixture.start) as [Hschema _].
  destruct (mode_above_top_level_is_top_level Fixture.world Fixture.roads
              7 Fixture.start) as [_ Hdriver].
  split.
  - apply Hschema. unfold MODE.VERYSTRICT. lia.
  - apply Hdriver. unfold MODE.STRICT. lia.
Defined.

(** X3. validategml and validategeotiff return a boolean at every mode;
    validategeojson returns a boolean at every mode below VERYSTRICT
    and validateshapefile at every mode below STRICT: below those
    levels no validator raises. *)
Theorem validators_return_below_raising_levels
    (W : World) (inp : ComplexInput) (mode : Z) (st : State) :
  (exists b, outcome (validategml W inp mode st) = Return b) /\
  (exists b, outcome (validategeotiff W inp mode st) = Return b) /\
  (mode < MODE.VERYSTRICT ->
   exists b, outcome (validategeojson W inp mode st) = Return b) /\
  (mode < MODE.STRICT ->
   exists b, outcome (validateshapefile W inp mode st) = Return b).
Proof.
  rewrite validategml_run, validategeotiff_run.
  split; [eexists; reflexivity|].
  split; [eexists; reflexivity|].
  split; intros Hbelow.
  - rewrite validategeojson_run_below by exact Hbelow. eexists; reflexivity.
  - rewrite validateshapefile_run_below by exact Hbelow. eexists; reflexivity.
Qed.

Lemma validators_return_below_raising_levels_witness :
  (exists b, outcome (validategeojson Fixture.world Fixture.broken_json
                        MODE.STRICT Fixture.start) = Return b) /\
  (exists b, outcome (validateshapefile Fixture.world Fixture.notes
                        MODE.SIMPLE Fixture.start) = Return b).
Proof.
  destruct (validators_return_below_raising_levels Fixture.world
              Fixture.broken_json MODE.STRICT Fixture.start)
    as (_ & _ & Hjson & _).
  destruct (validators_return_below_raising_levels Fixture.world
              Fixture.notes MODE.SIMPLE Fixture.start)
    as (_ & _ & _ & Hshape).
  split.
  - apply Hjson. reflexivity.
  - apply Hshape. reflexivity.
Defined.

(** X4. validategml, validategeojson and validategeotiff extract no
    file at any mode, however the call ends, and validateshapefile
    extracts none below STRICT. *)
Theorem only_shapefile_STRICT_extracts
    (W : World) (inp : ComplexInput) (mode : Z) (st : State) :
  files_written (validategml W inp mode st) = extracted st /\
  files_written (validategeojson W inp mode st) = extracted st /\
  files_written (validategeotiff W inp mode st) = extracted st /\
  (mode < MODE.STRICT ->
   files_written (validateshapefile W inp mode st) = extracted st).
Proof.
  rewrite validategml_run, validategeotiff_run, validategeojson_files.
  repeat split.
  intros Hbelow. rewrite validateshapefile_run_below by exact Hbelow.
  reflexivity.
Qed.

Lemma only_shapefile_STRICT_extracts_witness :
  files_written (validateshapefile Fixture.world Fixture.roads MODE.SIMPLE
                   Fixture.start) = [].
Proof.
  destruct (only_shapefile_STRICT_extracts Fixture.world Fixture.roads
              MODE.SIMPLE Fixture.start) as (_ & _ & _ & Hshape).
  apply Hshape. reflexivity.
Defined.

(** *** Failures while the archive is read *)

Lemma extract_members_fails W inp z front bad rest e :
  (forall fs member, In member front ->
     ZipFile_extract W fs z member (tempdir inp) = None) ->
  (forall fs, ZipFile_extract W fs z bad (tempdir inp) = Some e) ->
  forall shape_name s,
    extract_members W inp z shape_name (front ++ bad :: rest) s =
    (Raise e,
     {| extracted := extracted s ++ map (fun n => (n, tempdir inp)) front;
        logged := logged s |}).
Proof.
  intros Hfront Hbad.
  induction front as [|name front IH]; intros shape_name s.
  - cbn [app map extract_members]. unfold extract_member. unfold_stmts.
    rewrite Hbad. cbn. rewrite app_nil_r. destruct s; reflexivity.
  - cbn [app map extract_members]. unfold bind at 1.
    unfold extract_member. unfold_stmts.
    rewrite Hfront by (left; reflexivity). cbn [fst snd extracted logged].
    destruct (bool_decide (lower (os_path.splitext name).2 = ".shp"));
      (rewrite IH by (intros fs member Hin; apply Hfront; right; exact Hin));
      cbn [extracted logged]; rewrite <- app_assoc; reflexivity.
Qed.

(** X5. Errors while validateshapefile reads the archive reach the
    caller, at STRICT and above.  When the file cannot be opened as an
    archive, the exception of the open call is raised and nothing is
    extracted.  When the extraction of a member raises, that exception
    is raised, the members before it stay extracted in the scratch
    directory and no later member is extracted. *)
Theorem shapefile_archive_errors_propagate
    (W : World) (inp : ComplexInput) (mode : Z) (st : State) (e : exn) :
  MODE.STRICT <= mode ->
  (zipfile_ZipFile W (extracted st) (file inp) = Raise e ->
   outcome (validateshapefile W inp mode st) = Raise e /\
   files_written (validateshapefile W inp mode st) = extracted st) /\
  (forall z front bad rest,
     zipfile_ZipFile W (extracted st) (file inp) = Return z ->
     namelist z = (front ++ bad :: rest)%list ->
     (forall fs member, In member front ->
        ZipFile_extract W fs z member (tempdir inp) = None) ->
     (forall fs, ZipFile_extract W fs z bad (tempdir inp) = Some e) ->
     outcome (validateshapefile W inp mode st) = Raise e /\
     files_written (validateshapefile W inp mode st) =
       (extracted st ++ map (fun n => (n, tempdir inp)) front)%list).
Proof.
  intros Hmode. unfold validateshapefile.
  rewrite (geb_above mode MODE.STRICT Hmode).
  split.
  - intros Hzip. unfold_stmts. cbn -[extract_members]. rewrite Hzip.
    split; reflexivity.
  - intros z front bad rest Hzip Hnames Hfront Hbad.
    unfold_stmts. cbn -[extract_members]. rewrite Hzip, Hnames.
    rewrite (extract_members_fails W inp z front bad rest e Hfront Hbad).
    split; reflexivity.
Qed.

(** A GeoTIFF is no archive; and when the volume fills at [roads.shx],
    the two members before it are left behind. *)
Lemma shapefile_archive_errors_propagate_witness :
  outcome (validateshapefile Fixture.world Cases.no_archive MODE.STRICT
             Fixture.start) =
    Raise (mk_exn BadZipfile "File is not a zip file") /\
  outcome (validateshapefile Cases.disk_full Fixture.roads MODE.STRICT
             Fixture.start) =
    Raise (mk_exn IOError "No space left on device") /\
  files_written (validateshapefile Cases.disk_full Fixture.roads MODE.STRICT
                   Fixture.start) =
    [("roads.dbf", "/tmp/w3"); ("old/roads.SHP", "/tmp/w3")].
Proof.
  destruct (shapefile_archive_errors_propagate Fixture.world Cases.no_archive
              MODE.STRICT Fixture.start
              (mk_exn BadZipfile "File is not a zip file"))
    as [Hopen _]; [reflexivity|].
  destruct (shapefile_archive_errors_propagate Cases.disk_full Fixture.roads
              MODE.STRICT Fixture.start
              (mk_exn IOError "No space left on device"))
    as [_ Hextract]; [reflexivity|].
  destruct (Hextract
              (mk_ZipFile "/data/roads.zip"
                 ["roads.dbf"; "old/roads.SHP"; "roads.shx"; "roads.shp";
                  "roads.prj"])
              ["roads.dbf"; "old/roads.SHP"] "roads.shx"
              ["roads.shp"; "roads.prj"] eq_refl eq_refl)
    as [Hraised Hleft].
  - intros fs member [<-|[<-|[]]]; reflexivity.
  - intros fs. reflexivity.
  - split; [exact (proj1 (Hopen eq_refl)) | split; [exact Hraised | exact Hleft]].
Defined.

(** *** The path that is opened *)

Lemma join_absolute_member (dir name : string) :
  os_path.startswith_sep name = true -> os_path.join dir [name] = name.
Proof.
  intros Habs. unfold os_path.join. cbn. unfold os_path.join_step.
  rewrite Habs. reflexivity.
Qed.

Lemma join_relative_member (dir name : string) :
  os_path.startswith_sep name = false ->
  dir <> "" -> os_path.endswith_sep dir = false ->
  os_path.join dir [name] = dir +:+ "/" +:+ name.
Proof.
  intros Hrel Hdir Hsep. unfold os_path.join. cbn. unfold os_path.join_step.
  rewrite Hrel, Hsep.
  rewrite (bool_decide_eq_false_2 (dir = "")) by exact Hdir. reflexivity.
Qed.

(** X6. The file validateshapefile opens at STRICT is named by joining
    the scratch directory and the name of the last [.shp] member.  For
    a relative member name that is the extracted file,
    [tempdir/name]; for a member name that starts with [/] the join
    yields the member name alone, so the file opened is the one at that
    absolute path, not one below the scratch directory. *)
Theorem shapefile_opened_path
    (W : World) (inp : ComplexInput) (st : State) (z : ZipFile)
    (name : string) :
  zipfile_ZipFile W (extracted st) (file inp) = Return z ->
  (forall fs member, ZipFile_extract W fs z member (tempdir inp) = None) ->
  last_shp (namelist z) = Some name ->
  let written : list (string * string) :=
    (extracted st ++ map (fun n => (n, tempdir inp)) (namelist z))%list in
  (os_path.startswith_sep name = true ->
   outcome (validateshapefile W inp MODE.STRICT st) =
   Return (driver_check (ogr_Open W written name) GetName "ESRI Shapefile")) /\
  (os_path.startswith_sep name = false ->
   tempdir inp <> "" -> os_path.endswith_sep (tempdir inp) = false ->
   outcome (validateshapefile W inp MODE.STRICT st) =
   Return (driver_check (ogr_Open W written (tempdir inp +:+ "/" +:+ name))
             GetName "ESRI Shapefile")).
Proof.
  intros Hzip Hextract Hlast written.
  rewrite (validateshapefile_STRICT_ok W inp st z Hzip Hextract).
  unfold outcome. cbn [fst]. rewrite Hlast. fold written.
  split.
  - intros Habs. rewrite (join_absolute_member _ _ Habs). reflexivity.
  - intros Hrel Hdir Hsep.
    rewrite (join_relative_member _ _ Hrel Hdir Hsep). reflexivity.
Qed.

(** The member [/srv/shared/roads.shp] of [shared.zip] makes the
    validator open [/srv/shared/roads.shp]; the member [roads.shp] of
    [roads.zip] makes it open [/tmp/w3/roads.shp]. *)
Lemma shapefile_opened_path_witness :
  outcome (validateshapefile Cases.shared Cases.shared_archive MODE.STRICT
             Fixture.start) =
  Return (driver_check
            (ogr_Open Cases.shared
               [("notes/readme.txt", "/tmp/w8");
                ("/srv/shared/roads.shp", "/tmp/w8")]
               "/srv/shared/roads.shp")
            GetName "ESRI Shapefile") /\
  outcome (validateshapefile Fixture.world Fixture.roads MODE.STRICT
             Fixture.start) =
  Return (driver_check
            (ogr_Open Fixture.world
               [("roads.dbf", "/tmp/w3"); ("old/roads.SHP", "/tmp/w3");
                ("roads.shx", "/tmp/w3"); ("roads.shp", "/tmp/w3");
                ("roads.prj", "/tmp/w3")]
               "/tmp/w3/roads.shp")
            GetName "ESRI Shapefile").
Proof.
  split.
  - exact (proj1 (shapefile_opened_path Cases.shared Cases.shared_archive
                    Fixture.start
                    (mk_ZipFile "/data/shared.zip"
                       ["notes/readme.txt"; "/srv/shared/roads.shp"])
                    "/srv/shared/roads.shp"
                    eq_refl (fun _ _ => eq_refl) eq_refl) eq_refl).
  - refine (proj2 (shapefile_opened_path Fixture.world Fixture.roads
                     Fixture.start
                     (mk_ZipFile "/data/roads.zip"
                        ["roads.dbf"; "old/roads.SHP"; "roads.shx";
                         "roads.shp"; "roads.prj"])
                     "roads.shp"
                     eq_refl (fun _ _ => eq_refl) eq_refl) eq_refl _ eq_refl).
    discriminate.
Defined.

(** *** The VERYSTRICT level of the GeoJSON validator *)

Lemma validategeojson_VERYSTRICT_accepts W inp st
    geojson_base crs bbox geometry instance :
  map (json_load_file W (extracted st)) (geojson_schema_files W) =
    [Return geojson_base; Return crs; Return bbox; Return geometry] ->
  json_loads W (stream inp) = Return instance ->
  Draft4Validator_validate W
    (bundled_validator geojson_base crs bbox geometry) instance = None ->
  outcome (validategeojson W inp MODE.VERYSTRICT st) = Return true.
Proof.
  unfold geojson_schema_files, bundled_validator. cbn.
  intros [= Hbase Hcrs Hbbox Hgeometry] Hloads Hvalid.
  unfold validategeojson. unfold_stmts. cbn.
  destruct (ogr_Open W (extracted st) (file inp)) as [[[] d]|]; cbn;
    rewrite Hbase, Hcrs, Hbbox, Hgeometry, Hloads; cbn;
    rewrite Hvalid; reflexivity.
Qed.

(** X7. validategeojson loads the four bundled schema files before it
    enters its [try]: when one of them cannot be loaded, the call at
    VERYSTRICT or above raises the exception of the first failing load,
    whatever the input holds and whatever class the exception has. *)
Theorem geojson_unloadable_schema_raises
    (W : World) (inp : ComplexInput) (mode : Z) (st : State)
    (loaded : list Json) (e : exn) (rest : list (result Json)) :
  MODE.VERYSTRICT <= mode ->
  map (json_load_file W (extracted st)) (geojson_schema_files W) =
    (map Return loaded ++ Raise e :: rest)%list ->
  outcome (validategeojson W inp mode st) = Raise e.
Proof.
  intros Hmode. unfold validategeojson.
  rewrite (geb_above mode MODE.VERYSTRICT Hmode).
  rewrite (geb_above mode MODE.STRICT)
    by (unfold MODE.STRICT, MODE.VERYSTRICT in *; lia).
  unfold geojson_schema_files. cbn [map].
  destruct loaded as [|base [|crs [|bbox [|geometry loaded]]]];
    cbn [map app]; intros Hloads; injection Hloads as Hloads;
    [ | | | | destruct loaded; discriminate ];
    unfold_stmts; cbn;
    destruct (ogr_Open W (extracted st) (file inp)) as [[[] d]|]; cbn;
    repeat match goal with
           | H : json_load_file _ _ _ = _ |- _ => rewrite H; clear H; cbn
           end; reflexivity.
Qed.

Lemma geojson_unloadable_schema_raises_witness :
  outcome (validategeojson Cases.without_crs Fixture.point_input
             MODE.VERYSTRICT Fixture.start) =
  Raise (mk_exn IOError "No such file or directory").
Proof.
  apply (geojson_unloadable_schema_raises Cases.without_crs
           Fixture.point_input MODE.VERYSTRICT Fixture.start
           ["/srv/pywps/validator/../schemas/geojson/geojson.json"]
           (mk_exn IOError "No such file or directory")
           [Return "/srv/pywps/validator/../schemas/geojson/bbox.json";
            Return "/srv/pywps/validator/../schemas/geojson/geometry.json"]).
  - reflexivity.
  - reflexivity.
Defined.

(** X8. validategeojson at VERYSTRICT returns True exactly when the
    bundled schema files load, the input parses as JSON and the bundled
    schema validates the parsed document; neither the declared MIME
    type nor the answer of the vector library has a say. *)
Theorem geojson_VERYSTRICT_True_iff_valid
    (W : World) (inp : ComplexInput) (st : State) :
  outcome (validategeojson W inp MODE.VERYSTRICT st) = Return true <->
  geojson_schema_valid W (extracted st) inp.
Proof.
  split.
  - intros Htrue.
    apply (validategeojson_VERYSTRICT_returns W inp st true Htrue).
    reflexivity.
  - intros (geojson_base & crs & bbox & geometry & instance &
            Hfiles & Hloads & Hvalid).
    exact (validategeojson_VERYSTRICT_accepts W inp st _ _ _ _ _
             Hfiles Hloads Hvalid).
Qed.

(** The point of the specification's scenario passes. *)
Lemma geojson_VERYSTRICT_True_iff_valid_witness :
  outcome (validategeojson Fixture.world Fixture.point_input MODE.VERYSTRICT
             Fixture.start) = Return true.
Proof.
  apply (proj2 (geojson_VERYSTRICT_True_iff_valid Fixture.world
                  Fixture.point_input Fixture.start)).
  exists "/srv/pywps/validator/../schemas/geojson/geojson.json",
         "/srv/pywps/validator/../schemas/geojson/crs.json",
         "/srv/pywps/validator/../schemas/geojson/bbox.json",
         "/srv/pywps/validator/../schemas/geojson/geometry.json",
         Fixture.point.
  repeat split.
Defined.

(** X9. Of the exceptions raised inside the [try] of validategeojson,
    only [ValidationError] is handled: an exception of another class
    raised by [json.loads] on the input, or by the validation of the
    parsed document, reaches the caller at VERYSTRICT. *)
Theorem geojson_other_exceptions_propagate
    (W : World) (inp : ComplexInput) (st : State)
    (geojson_base crs bbox geometry : Json) (e : exn) :
  map (json_load_file W (extracted st)) (geojson_schema_files W) =
    [Return geojson_base; Return crs; Return bbox; Return geometry] ->
  isinstance e ValidationError = false ->
  (json_loads W (stream inp) = Raise e ->
   outcome (validategeojson W inp MODE.VERYSTRICT st) = Raise e) /\
  (forall instance,
     json_loads W (stream inp) = Return instance ->
     Draft4Validator_validate W
       (bundled_validator geojson_base crs bbox geometry) instance = Some e ->
     outcome (validategeojson W inp MODE.VERYSTRICT st) = Raise e).
Proof.
  unfold geojson_schema_files, bundled_validator. cbn.
  intros [= Hbase Hcrs Hbbox Hgeometry] Hclass.
  unfold validategeojson. unfold_stmts. cbn.
  split.
  - intros Hloads.
    destruct (ogr_Open W (extracted st) (file inp)) as [[[] d]|]; cbn;
      rewrite Hbase, Hcrs, Hbbox, Hgeometry, Hloads; cbn;
      rewrite Hclass; reflexivity.
  - intros instance Hloads Hvalid.
    destruct (ogr_Open W (extracted st) (file inp)) as [[[] d]|]; cbn;
      rewrite Hbase, Hcrs, Hbbox, Hgeometry, Hloads; cbn;
      rewrite Hvalid; cbn; rewrite Hclass; reflexivity.
Qed.

(** A bundled schema that is no valid schema makes the validation of the
    point raise [SchemaError], which is not handled. *)
Lemma geojson_other_exceptions_propagate_witness :
  outcome (validategeojson Cases.bad_schema Fixture.point_input
             MODE.VERYSTRICT Fixture.start) =
  Raise (mk_exn SchemaError "is not of type 'object'").
Proof.
  destruct (geojson_other_exceptions_propagate Cases.bad_schema
              Fixture.point_input Fixture.start
              "/srv/pywps/validator/../schemas/geojson/geojson.json"
              "/srv/pywps/validator/../schemas/geojson/crs.json"
              "/srv/pywps/validator/../schemas/geojson/bbox.json"
              "/srv/pywps/validator/../schemas/geojson/geometry.json"
              (mk_exn SchemaError "is not of type 'object'")
              eq_refl eq_refl) as [_ Hvalidate].
  exact (Hvalidate Fixture.point eq_refl eq_refl).
Defined.

(** X10. No input passes STRICT both as GML and as GeoJSON: the two
    validators ask the same library about the same file and accept
    different driver names, so an input that validategml accepts at
    STRICT is one validategeojson rejects at STRICT, and conversely. *)
Theorem STRICT_GML_and_GeoJSON_exclude_each_other
    (W : World) (inp : ComplexInput) (st : State) :
  (outcome (validategml W inp MODE.STRICT st) = Return true ->
   outcome (validategeojson W inp MODE.STRICT st) = Return false) /\
  (outcome (validategeojson W inp MODE.STRICT st) = Return true ->
   outcome (validategml W inp MODE.STRICT st) = Return false).
Proof.
  rewrite validategml_STRICT, validategeojson_STRICT. unfold driver_check.
  destruct (ogr_Open W (extracted st) (file inp)) as [ds|]; cbn;
    [|split; discriminate].
  destruct (truth ds); cbn; [|split; discriminate].
  split; intros [= Hname]; apply bool_decide_eq_true in Hname;
    rewrite Hname; reflexivity.
Qed.

Lemma STRICT_GML_and_GeoJSON_exclude_each_other_witness :
  outcome (validategml Fixture.world Fixture.parcels MODE.STRICT
             Fixture.start) = Return true /\
  outcome (validategeojson Fixture.world Fixture.parcels MODE.STRICT
             Fixture.start) = Return false.
Proof.
  split; [reflexivity|].
  apply (proj1 (STRICT_GML_and_GeoJSON_exclude_each_other Fixture.world
                  Fixture.parcels Fixture.start)).
  reflexivity.
Defined.

(** *** The schemas directory *)

Lemma append_cons (c : ascii) (a b : string) :
  String c a +:+ b = String c (a +:+ b).
Proof. reflexivity. Qed.

Lemma append_assoc (a b c : string) : (a +:+ b) +:+ c = a +:+ (b +:+ c).
Proof.
  induction a as [|x a IH]; [reflexivity|].
  rewrite !append_cons, IH. reflexivity.
Qed.

Lemma append_nonempty (a b : string) : b <> "" -> a +:+ b <> "".
Proof.
  intros Hb. destruct a as [|x a]; [exact Hb|].
  rewrite append_cons. discriminate.
Qed.

Lemma endswith_sep_append (a b : string) :
  b <> "" -> os_path.endswith_sep (a +:+ b) = os_path.endswith_sep b.
Proof.
  intros Hb. induction a as [|x a IH]; [reflexivity|].
  rewrite append_cons. cbn [os_path.endswith_sep].
  destruct (a +:+ b) eqn:Hab.
  - exfalso. exact (append_nonempty a b Hb Hab).
  - exact IH.
Qed.

Lemma join_relative (dir name : string) :
  os_path.startswith_sep name = false ->
  dir <> "" -> os_path.endswith_sep dir = false ->
  os_path.join_step dir name = dir +:+ "/" +:+ name.
Proof.
  intros Hrel Hdir Hsep. unfold os_path.join_step.
  rewrite Hrel, Hsep.
  rewrite (bool_decide_eq_false_2 (dir = "")) by exact Hdir. reflexivity.
Qed.

(** X11. For a module directory that is not empty and does not end in
    [/], _get_schemas_home returns the directory followed by
    [/../schemas], with the parent step left in the path, logs it at
    debug level and raises nothing; the four schema files
    validategeojson loads lie in [geojson] below it. *)
Theorem schemas_home_is_beside_the_module
    (W : World) (st : State) :
  module_dirname W <> "" ->
  os_path.endswith_sep (module_dirname W) = false ->
  _get_schemas_home W st =
    (Return (module_dirname W +:+ "/../schemas"),
     {| extracted := extracted st;
        logged := logged st ++
                  [LogDebug "Schemas directory: %s"
                     (module_dirname W +:+ "/../schemas")] |}) /\
  geojson_schema_files W =
    map (fun f => module_dirname W +:+ "/../schemas/geojson/" +:+ f)
        ["geojson.json"; "crs.json"; "bbox.json"; "geometry.json"].
Proof.
  intros Hdir Hsep.
  assert (Hhome :
    os_path.join (module_dirname W) [os_path.pardir; "schemas"] =
    module_dirname W +:+ "/../schemas").
  { unfold os_path.join. cbn [fold_left].
    rewrite (join_relative (module_dirname W)) by (reflexivity || assumption).
    rewrite join_relative.
    - rewrite append_assoc. reflexivity.
    - reflexivity.
    - apply append_nonempty. discriminate.
    - rewrite endswith_sep_append by discriminate. reflexivity. }
  assert (Hgeojson :
    os_path.join (module_dirname W +:+ "/../schemas") ["geojson"] =
    module_dirname W +:+ "/../schemas/geojson").
  { unfold os_path.join. cbn [fold_left]. rewrite join_relative.
    - rewrite append_assoc. reflexivity.
    - reflexivity.
    - apply append_nonempty. discriminate.
    - rewrite endswith_sep_append by discriminate. reflexivity. }
  split.
  - unfold _get_schemas_home. rewrite Hhome. reflexivity.
  - unfold geojson_schema_files. rewrite Hhome, Hgeojson.
    cbn [map]. unfold os_path.join. cbn [fold_left].
    rewrite !join_relative;
      try reflexivity;
      try (apply append_nonempty; discriminate);
      try (rewrite endswith_sep_append by discriminate; reflexivity).
    rewrite !append_assoc. reflexivity.
Qed.

Lemma schemas_home_is_beside_the_module_witness :
  outcome (_get_schemas_home Fixture.world Fixture.start) =
    Return "/srv/pywps/validator/../schemas" /\
  geojson_schema_files Fixture.world =
    ["/srv/pywps/validator/../schemas/geojson/geojson.json";
     "/srv/pywps/validator/../schemas/geojson/crs.json";
     "/srv/pywps/validator/../schemas/geojson/bbox.json";
     "/srv/pywps/validator/../schemas/geojson/geometry.json"].
Proof.
  destruct (schemas_home_is_beside_the_module Fixture.world Fixture.start)
    as [Hhome Hfiles].
  - discriminate.
  - reflexivity.
  - split; [rewrite Hhome; reflexivity | exact Hfiles].
Defined.

(** *** What the validators log *)

Lemma extract_members_logged W inp z names :
  forall shape_name s,
    logged (snd (extract_members W inp z shape_name names s)) = logged s.
Proof.
  induction names as [|name names IH]; intros shape_name s; [reflexivity|].
  cbn [extract_members]. unfold bind at 1. unfold extract_member.
  unfold_stmts.
  destruct (ZipFile_extract W (extracted s) z name (tempdir inp)); cbn;
    [reflexivity|].
  destruct (bool_decide (lower (os_path.splitext name).2 = ".shp"));
    rewrite IH; reflexivity.
Qed.

Lemma validateshapefile_logged W inp mode st :
  log_of (validateshapefile W inp mode st) =
  (logged st ++ [LogInfo "validating Shapefile; Mode: %s" mode])%list.
Proof.
  destruct (Z_lt_ge_dec mode MODE.STRICT) as [Hbelow|Habove].
  - rewrite validateshapefile_run_below by exact Hbelow. reflexivity.
  - apply Z.ge_le in Habove. unfold validateshapefile.
    rewrite (geb_above mode MODE.STRICT Habove).
    unfold_stmts. cbn -[extract_members].
    destruct (zipfile_ZipFile W (extracted st) (file inp)) as [z|e];
      [|reflexivity].
    pose proof (extract_members_logged W inp z (namelist z) None
                  {| extracted := extracted st;
                     logged := logged st ++
                       [LogInfo "validating Shapefile; Mode: %s" mode] |})
      as Hlog.
    destruct (extract_members W inp z None (namelist z) _)
      as [[[name|]|e] s']; cbn in Hlog |- *; try exact Hlog.
    destruct (bool_decide (name = "")); cbn; [exact Hlog|].
    destruct (ogr_Open W (extracted s') _) as [[[] d]|]; cbn; exact Hlog.
Qed.

Lemma validategeojson_logged W inp mode st :
  log_of (validategeojson W inp mode st) =
  (logged st ++
   LogInfo "validating GeoJSON; Mode: %s" mode ::
   (if mode >=? MODE.VERYSTRICT
    then [LogDebug "Schemas directory: %s"
            (os_path.join (module_dirname W) [os_path.pardir; "schemas"])]
    else []))%list.
Proof.
  destruct (Z_lt_ge_dec mode MODE.VERYSTRICT) as [Hbelow|Habove].
  - rewrite validategeojson_run_below by exact Hbelow.
    rewrite (geb_below _ _ Hbelow). reflexivity.
  - apply Z.ge_le in Habove. unfold validategeojson.
    rewrite (geb_above mode MODE.VERYSTRICT Habove).
    rewrite (geb_above mode MODE.STRICT)
      by (unfold MODE.STRICT, MODE.VERYSTRICT in *; lia).
    unfold_stmts. cbn.
    repeat match goal with
           | |- context [ogr_Open ?w ?fs ?p] =>
               destruct (ogr_Open w fs p) as [[[] ?]|]; cbn
           | |- context [json_load_file ?w ?fs ?p] =>
               destruct (json_load_file w fs p); cbn
           | |- context [json_loads ?w ?t] => destruct (json_loads w t); cbn
           | |- context [Draft4Validator_validate ?w ?v ?i] =>
               destruct (Draft4Validator_validate w v i); cbn
           | |- context [isinstance ?e ?c] => destruct (isinstance e c); cbn
           end; rewrite <- app_assoc; reflexivity.
Qed.

(** X12. What a call adds to the log, however it ends.  Each validator
    first logs one info record with the mode; validategeotiff's record
    reads [Validating Shapefile].  validateshapefile and validategeotiff
    log nothing else, not even when the archive cannot be read;
    validategeojson adds the schemas directory at debug level from
    VERYSTRICT on and no record for a failure; validategml adds one
    warning, holding the exception, exactly when its schema validation
    raised. *)
Theorem what_the_validators_log
    (W : World) (inp : ComplexInput) (mode : Z) (st : State) :
  log_of (validateshapefile W inp mode st) =
    (logged st ++ [LogInfo "validating Shapefile; Mode: %s" mode])%list /\
  log_of (validategeotiff W inp mode st) =
    (logged st ++ [LogInfo "Validating Shapefile; Mode: %s" mode])%list /\
  log_of (validategeojson W inp mode st) =
    (logged st ++
     LogInfo "validating GeoJSON; Mode: %s" mode ::
     (if mode >=? MODE.VERYSTRICT
      then [LogDebug "Schemas directory: %s"
              (os_path.join (module_dirname W) [os_path.pardir; "schemas"])]
      else []))%list /\
  log_of (validategml W inp mode st) =
    (logged st ++
     LogInfo "validating GML; Mode: %s" mode ::
     (if mode >=? MODE.VERYSTRICT
      then match gml_schema_attempt W inp with
           | Return _ => []
           | Raise e => [LogWarning e]
           end
      else []))%list.
Proof.
  split; [apply validateshapefile_logged|].
  split; [rewrite validategeotiff_run; reflexivity|].
  split; [apply validategeojson_logged|].
  rewrite validategml_run. reflexivity.
Qed.

(** *** Letter case of member names *)

Lemma lower_ascii_eqb_sep (a : ascii) :
  Ascii.eqb (lower_ascii a) os_path.sep = Ascii.eqb a os_path.sep.
Proof. destruct a as [[] [] [] [] [] [] [] []]; reflexivity. Qed.

Lemma lower_ascii_eqb_extsep (a : ascii) :
  Ascii.eqb (lower_ascii a) os_path.extsep = Ascii.eqb a os_path.extsep.
Proof. destruct a as [[] [] [] [] [] [] [] []]; reflexivity. Qed.

Lemma lower_ascii_idempotent (a : ascii) :
  lower_ascii (lower_ascii a) = lower_ascii a.
Proof. destruct a as [[] [] [] [] [] [] [] []]; reflexivity. Qed.

Lemma lower_idempotent (s : string) : lower (lower s) = lower s.
Proof.
  induction s as [|a s IH]; [reflexivity|].
  cbn. rewrite lower_ascii_idempotent, IH. reflexivity.
Qed.

Lemma length_lower (s : string) : String.length (lower s) = String.length s.
Proof. induction s as [|a s IH]; [reflexivity|]. cbn. rewrite IH. reflexivity. Qed.

Lemma get_lower (s : string) :
  forall n, String.get n (lower s) = option_map lower_ascii (String.get n s).
Proof.
  induction s as [|a s IH]; intros n; [reflexivity|].
  destruct n as [|n]; [reflexivity|]. cbn. apply IH.
Qed.

Lemma substring_lower (s : string) :
  forall n m, String.substring n m (lower s) = lower (String.substring n m s).
Proof.
  induction s as [|a s IH]; intros n m.
  - destruct n, m; reflexivity.
  - destruct n as [|n]; [destruct m as [|m]|]; cbn.
    + reflexivity.
    + rewrite IH. reflexivity.
    + apply IH.
Qed.

Lemma rfind_from_lower (c : ascii) (s : string) :
  (forall a, Ascii.eqb (lower_ascii a) c = Ascii.eqb a c) ->
  forall i found,
    os_path.rfind_from c (lower s) i found = os_path.rfind_from c s i found.
Proof.
  intros Hc. induction s as [|a s IH]; intros i found; [reflexivity|].
  cbn. rewrite Hc. apply IH.
Qed.

Lemma has_body_lower (n : nat) (p : string) :
  forall i, os_path.has_body n (lower p) i = os_path.has_body n p i.
Proof.
  induction n as [|n IH]; intros i; [reflexivity|].
  cbn. rewrite get_lower.
  destruct (String.get (Z.to_nat i) p) as [a|]; cbn; [|reflexivity].
  rewrite lower_ascii_eqb_extsep, IH. reflexivity.
Qed.

Lemma splitext_lower (p : string) :
  os_path.splitext (lower p) =
  (lower (fst (os_path.splitext p)), lower (snd (os_path.splitext p))).
Proof.
  unfold os_path.splitext, os_path.rfind, os_path.prefix, os_path.suffix.
  rewrite !rfind_from_lower
    by (apply lower_ascii_eqb_sep || apply lower_ascii_eqb_extsep).
  rewrite has_body_lower, length_lower, !substring_lower.
  destruct (_ && _); reflexivity.
Qed.

Lemma is_shp_lower (name : string) : is_shp (lower name) = is_shp name.
Proof.
  unfold is_shp. rewrite splitext_lower. cbn [snd].
  rewrite lower_idempotent. reflexivity.
Qed.

Lemma last_map {A B} (f : A -> B) (l : list A) :
  last (map f l) = option_map f (last l).
Proof.
  induction l as [|x l IH]; [reflexivity|].
  cbn [map]. rewrite !last_cons, IH. destruct (last l); reflexivity.
Qed.

(** X13. Whether an archive member counts as the shapefile does not
    depend on the letter case of its name: the loop's test gives the
    same answer for a name and for its lower-case form, and writing all
    member names of an archive in lower case changes the chosen member
    into its lower-case form and nothing else. *)
Theorem shp_member_choice_ignores_letter_case (names : list string) :
  (forall name, is_shp (lower name) = is_shp name) /\
  last_shp (map lower names) = option_map lower (last_shp names).
Proof.
  split; [exact is_shp_lower|].
  unfold last_shp. rewrite <- last_map. f_equal.
  induction names as [|name names IH]; [reflexivity|].
  cbn [map List.filter]. rewrite is_shp_lower.
  destruct (is_shp name); cbn [map]; rewrite IH; reflexivity.
Qed.

(** *** Member names with and without a base name before [.shp] *)

Lemma length_append (a b : string) :
  String.length (a +:+ b) = (String.length a + String.length b)%nat.
Proof.
  induction a as [|x a IH]; [reflexivity|].
  rewrite append_cons. cbn. rewrite IH. reflexivity.
Qed.

Lemma get_append_here (a b : string) (c : ascii) :
  String.get (String.length a) (a +:+ String c b) = Some c.
Proof. induction a as [|x a IH]; [reflexivity | exact IH]. Qed.

Lemma substring_append_skip (a b : string) (m : nat) :
  String.substring (String.length a) m (a +:+ b) = String.substring 0 m b.
Proof. induction a as [|x a IH]; [reflexivity | exact IH]. Qed.

Lemma rfind_from_append (c : ascii) (a b : string) :
  forall i found,
    os_path.rfind_from c (a +:+ b) i found =
    os_path.rfind_from c b (i + Z.of_nat (String.length a))
      (os_path.rfind_from c a i found).
Proof.
  induction a as [|x a IH]; intros i found.
  - cbn. rewrite Z.add_0_r. reflexivity.
  - rewrite append_cons. cbn [os_path.rfind_from String.length].
    rewrite IH. f_equal. lia.
Qed.

Lemma rfind_from_absent (c : ascii) (s : string) :
  ~ In c (list_ascii_of_string s) ->
  forall i found, os_path.rfind_from c s i found = found.
Proof.
  induction s as [|a s IH]; intros Habsent i found; [reflexivity|].
  cbn in *. destruct (Ascii.eqb_spec a c) as [->|Hne].
  - exfalso. apply Habsent. left. reflexivity.
  - apply IH. intros Hin. apply Habsent. right. exact Hin.
Qed.

Lemma rfind_from_endswith_sep (dir : string) :
  os_path.endswith_sep dir = true ->
  forall i found,
    os_path.rfind_from os_path.sep dir i found =
    i + Z.of_nat (String.length dir) - 1.
Proof.
  induction dir as [|a dir IH]; intros Hends i found; [discriminate|].
  destruct dir as [|b dir].
  - cbn in *. rewrite Hends. lia.
  - change (os_path.rfind_from os_path.sep (String a (String b dir)) i found)
      with (os_path.rfind_from os_path.sep (String b dir) (i + 1)
              (if Ascii.eqb a os_path.sep then i else found)).
    rewrite IH by exact Hends.
    change (String.length (String a (String b dir)))
      with (S (String.length (String b dir))). lia.
Qed.

(** The index just after the last separator of a directory prefix. *)
Lemma after_last_sep (dir : string) :
  dir = "" \/ os_path.endswith_sep dir = true ->
  os_path.rfind os_path.sep dir + 1 = Z.of_nat (String.length dir).
Proof.
  unfold os_path.rfind. intros [->|Hends]; [reflexivity|].
  rewrite rfind_from_endswith_sep by exact Hends. lia.
Qed.

(** X14. Which member names the loop of validateshapefile takes for a
    shapefile, for a directory prefix that is empty or ends in [/].  A
    member whose base name is [.shp] alone is not taken: [splitext]
    gives a name made of leading dots no extension.  A member
    [stem.shp] is taken when the stem holds no [/] and does not begin
    with a dot. *)
Theorem shp_member_needs_a_base_name (dir : string) :
  dir = "" \/ os_path.endswith_sep dir = true ->
  is_shp (dir +:+ ".shp") = false /\
  (forall c stem,
     c <> os_path.extsep ->
     ~ In os_path.sep (list_ascii_of_string (String c stem)) ->
     is_shp (dir +:+ String c stem +:+ ".shp") = true).
Proof.
  intros Hdir. pose proof (after_last_sep dir Hdir) as Hafter.
  split.
  - unfold is_shp, os_path.splitext.
    assert (Hsep : os_path.rfind os_path.sep (dir +:+ ".shp") =
                   os_path.rfind os_path.sep dir).
    { unfold os_path.rfind. rewrite rfind_from_append. reflexivity. }
    assert (Hdot : os_path.rfind os_path.extsep (dir +:+ ".shp") =
                   Z.of_nat (String.length dir)).
    { unfold os_path.rfind. rewrite rfind_from_append. reflexivity. }
    rewrite Hsep, Hdot, Hafter, Z.sub_diag. cbn [Z.to_nat os_path.has_body].
    rewrite andb_false_r. reflexivity.
  - intros c stem Hc Hstem.
    unfold is_shp, os_path.splitext.
    assert (Hsep : os_path.rfind os_path.sep (dir +:+ String c stem +:+ ".shp") =
                   os_path.rfind os_path.sep dir).
    { unfold os_path.rfind. rewrite !rfind_from_append.
      rewrite (rfind_from_absent os_path.sep (String c stem) Hstem).
      reflexivity. }
    assert (Hdot : os_path.rfind os_path.extsep
                     (dir +:+ String c stem +:+ ".shp") =
                   Z.of_nat (String.length dir) +
                   Z.of_nat (String.length (String c stem))).
    { unfold os_path.rfind. rewrite !rfind_from_append. reflexivity. }
    rewrite Hsep, Hdot, Hafter.
    replace (Z.of_nat (String.length dir) +
             Z.of_nat (String.length (String c stem)) -
             Z.of_nat (String.length dir))
      with (Z.of_nat (S (String.length stem)))
      by (cbn [String.length]; lia).
    rewrite Nat2Z.id. cbn [os_path.has_body].
    rewrite Nat2Z.id.
    change (String c stem +:+ ".shp") with (String c (stem +:+ ".shp")).
    rewrite get_append_here.
    change (String c (stem +:+ ".shp")) with (String c stem +:+ ".shp").
    rewrite (proj2 (Ascii.eqb_neq c os_path.extsep) Hc). cbn [negb].
    rewrite andb_true_r.
    replace (Z.of_nat (String.length dir) +
             Z.of_nat (String.length (String c stem)) >?
             os_path.rfind os_path.sep dir) with true
      by (symmetry; apply Z.gtb_lt; lia).
    cbn [snd]. unfold os_path.suffix.
    rewrite <- Nat2Z.inj_add, Nat2Z.id.
    rewrite <- length_append, <- append_assoc.
    rewrite substring_append_skip.
    rewrite length_append.
    replace (String.length (dir +:+ String c stem) + String.length ".shp" -
             String.length (dir +:+ String c stem))%nat with 4%nat
      by (cbn [String.length]; lia).
    reflexivity.
Qed.

Lemma shp_member_needs_a_base_name_witness :
  is_shp "layers/.shp" = false /\ is_shp "layers/roads.shp" = true.
Proof.
  destruct (shp_member_needs_a_base_name "layers/" (or_intror eq_refl))
    as [Hdotfile Hstem].
  split.
  - exact Hdotfile.
  - apply (Hstem "r"%char "oads").
    + discriminate.
    + cbn. intros [H|[H|[H|[H|[H|[]]]]]]; discriminate H.
Defined.

(** *** What the VERYSTRICT level reads *)

(** X15. At VERYSTRICT the verdict of the lower levels is discarded
    together with what they read: validategeojson ends the same way for
    two inputs with the same stream, and validategml for two inputs
    with the same stream and the same declared schema URL, whatever
    their file names and declared MIME types are and whether or not the
    vector library opens their files. *)
Theorem VERYSTRICT_reads_stream_and_schema_only
    (W : World) (inp1 inp2 : ComplexInput) (st : State) :
  stream inp1 = stream inp2 ->
  outcome (validategeojson W inp1 MODE.VERYSTRICT st) =
  outcome (validategeojson W inp2 MODE.VERYSTRICT st) /\
  (schema (data_format inp1) = schema (data_format inp2) ->
   outcome (validategml W inp1 MODE.VERYSTRICT st) =
   outcome (validategml W inp2 MODE.VERYSTRICT st)).
Proof.
  intros Hstream. split.
  - unfold validategeojson. unfold_stmts. cbn. rewrite Hstream.
    destruct (ogr_Open W (extracted st) (file inp1)) as [[[] d1]|],
      (ogr_Open W (extracted st) (file inp2)) as [[[] d2]|];
      reflexivity.
  - intros Hschema. rewrite !validategml_VERYSTRICT.
    unfold gml_schema_check, gml_schema_attempt.
    rewrite Hstream, Hschema. reflexivity.
Qed.

(** The point passes VERYSTRICT also under the name of a file the vector
    library does not open and with a declared type of plain text. *)
Lemma VERYSTRICT_reads_stream_and_schema_only_witness :
  outcome (validategeojson Fixture.world
             (Fixture.input "/data/missing.bin"
                (mk_Format (Some "text/plain") None) Fixture.point "/tmp/w2")
             MODE.STRICT Fixture.start) = Return false /\
  outcome (validategeojson Fixture.world
             (Fixture.input "/data/missing.bin"
                (mk_Format (Some "text/plain") None) Fixture.point "/tmp/w2")
             MODE.VERYSTRICT Fixture.start) = Return true.
Proof.
  split; [reflexivity|].
  rewrite (proj1 (VERYSTRICT_reads_stream_and_schema_only Fixture.world
                    (Fixture.input "/data/missing.bin"
                       (mk_Format (Some "text/plain") None) Fixture.point
                       "/tmp/w2")
                    Fixture.point_input Fixture.start eq_refl)).
  reflexivity.
Defined.

(** ** A second call on the same input *)

(** *** Statements whose end does not depend on the state *)

Section SameOutcome.

Context {A B : Type}.

Lemma same_outcome_ret (a : A) : same_outcome (ret a) (ret a).
Proof. intros s1 s2. reflexivity. Qed.

Lemma same_outcome_raise (e : exn) : same_outcome (@raise A e) (raise e).
Proof. intros s1 s2. reflexivity. Qed.

Lemma same_outcome_call (r : result A) : same_outcome (call r) (call r).
Proof. intros s1 s2. reflexivity. Qed.

Lemma same_outcome_bind (m1 m2 : M A) (k1 k2 : A -> M B) :
  same_outcome m1 m2 -> (forall a, same_outcome (k1 a) (k2 a)) ->
  same_outcome (bind m1 k1) (bind m2 k2).
Proof.
  intros Hm Hk s1 s2. unfold bind.
  specialize (Hm s1 s2). unfold outcome in *.
  destruct (m1 s1) as [[a1|e1] s1'], (m2 s2) as [[a2|e2] s2'];
    cbn in *; try discriminate.
  - injection Hm as ->. apply Hk.
  - injection Hm as ->. reflexivity.
Qed.

(** Reading the extraction history is harmless when what follows does
    not depend on what was read. *)
Lemma same_outcome_get_extracted
    (k1 k2 : list (string * string) -> M B) :
  (forall fs1 fs2, same_outcome (k1 fs1) (k2 fs2)) ->
  same_outcome (bind get_extracted k1) (bind get_extracted k2).
Proof. intros Hk s1 s2. unfold bind, get_extracted. apply Hk. Qed.

End SameOutcome.

Lemma same_outcome_record_extracted member dir :
  same_outcome (record_extracted member dir) (record_extracted member dir).
Proof. intros s1 s2. reflexivity. Qed.

Lemma same_outcome_emit (r1 r2 : LogRecord) :
  same_outcome (emit r1) (emit r2).
Proof. intros s1 s2. reflexivity. Qed.

Section HistoryFree.

Variable W : World.
Hypothesis HW : history_free W.

Lemma extract_members_same_outcome inp1 inp2 z names :
  tempdir inp1 = tempdir inp2 ->
  forall shape_name,
    same_outcome (extract_members W inp1 z shape_name names)
                 (extract_members W inp2 z shape_name names).
Proof.
  intros Hdir.
  induction names as [|name names IH]; intros shape_name;
    cbn [extract_members].
  - apply same_outcome_ret.
  - apply same_outcome_bind; [|intros found; apply IH].
    unfold extract_member. rewrite Hdir.
    apply same_outcome_get_extracted. intros fs1 fs2.
    rewrite (hf_extract W HW fs1 fs2).
    apply same_outcome_bind.
    + destruct (ZipFile_extract W fs2 z name (tempdir inp2)).
      * apply same_outcome_raise.
      * apply same_outcome_record_extracted.
    + intros _. destruct (bool_decide _); apply same_outcome_ret.
Qed.

(** With such collaborators validateshapefile ends the same way from
    any two states, for two inputs with the same file name, declared
    format and scratch directory. *)
Lemma validateshapefile_same_outcome inp1 inp2 mode :
  file inp1 = file inp2 -> data_format inp1 = data_format inp2 ->
  tempdir inp1 = tempdir inp2 ->
  same_outcome (validateshapefile W inp1 mode) (validateshapefile W inp2 mode).
Proof.
  intros Hfile Hformat Hdir.
  unfold validateshapefile, LOGGER_info. rewrite Hfile, Hformat.
  apply same_outcome_bind; [apply same_outcome_emit | intros _].
  apply same_outcome_bind; [|intros passed; apply same_outcome_ret].
  destruct (mode >=? MODE.STRICT); [|apply same_outcome_ret].
  apply same_outcome_get_extracted. intros fs1 fs2.
  rewrite (hf_ZipFile W HW fs1 fs2).
  apply same_outcome_bind; [apply same_outcome_call | intros z].
  apply same_outcome_bind;
    [apply extract_members_same_outcome; exact Hdir | intros shape_name].
  rewrite Hdir.
  apply same_outcome_bind.
  - destruct shape_name as [name|]; [|apply same_outcome_ret].
    destruct (negb (bool_decide (name = ""))); [|apply same_outcome_ret].
    apply same_outcome_get_extracted. intros fs1' fs2'.
    rewrite (hf_ogr_Open W HW fs1' fs2'). apply same_outcome_ret.
  - intros data_source. apply same_outcome_bind.
    + unfold read_local. destruct data_source;
        [apply same_outcome_ret | apply same_outcome_raise].
    + intros [ds|]; [|apply same_outcome_ret].
      destruct (truth ds); apply same_outcome_ret.
Qed.

End HistoryFree.



